(** * funfuzz: inspection of a compiled SpiderMonkey shell

    A shallow embedding of [src/funfuzz/js/inspect_shell.py] and the
    properties of its probes: [archOfBinary], [constructVgCmdList],
    [shellSupports], [testBinary], [testJsShellOrXpcshell],
    [queryBuildConfiguration] and [verifyBinary].

    Conventions of the embedding.
    - Python text is a [string]; its characters are the code points below
      256.  All markers, scripts and JSON literals of the module are ASCII.
      The text handed to the model is the process output after
      [.decode("utf-8", errors="replace")], which never raises.
    - Python integers are [Z].
    - A call of [subprocess.run] is answered by the host: a function of the
      invocations made so far and of the current one.  Every call is
      appended to a trace, also when it raises.
    - The shell object [sh] of [verifyBinary] lives in the store of the
      world, next to the trace.
    - [assert] raises AssertionError: the interpreter runs without -O.
    - [env_with_path] of lithium is taken as returning, which it does on
      Linux, Darwin and Windows; its result is a tag of the invocation.
    - The [FUNFUZZ_LOG.info] lines of [testBinary] are not modelled.
    - The module-level tables of library names are functions of the
      host. *)

From Stdlib Require Import ZArith List String Ascii Bool Lia QArith.
From Stdlib Require Import Numbers.DecimalString Numbers.DecimalPos Numbers.DecimalZ.
Import ListNotations.

Open Scope string_scope.
Open Scope Z_scope.
Open Scope list_scope.

(* ===================================================================== *)
(** ** Python primitives used by the module *)
(* ===================================================================== *)

Module Py.

(** Exceptions that can leave the functions of the module. *)
Inductive exn : Type :=
| AssertionError
| IndexError
| Exception (msg : string)
| TimeoutExpired
| OSError
| JSONDecodeError.

Inductive Result (A : Type) : Type :=
| Ok (a : A)
| Raise (e : exn).
Arguments Ok {A} a.
Arguments Raise {A} e.

(** [str(n)] for an integer. *)
Definition str_int (n : Z) : string := NilZero.string_of_int (Z.to_int n).

(** [needle in hay] for two strings. *)
Fixpoint str_in (needle hay : string) : bool :=
  prefix needle hay ||
  match hay with
  | EmptyString => false
  | String _ hay' => str_in needle hay'
  end.

(** The cut at the first colon: [None] when the text has no colon. *)
Fixpoint cut_colon (s : string) : option (string * string) :=
  match s with
  | EmptyString => None
  | String c s' =>
      if Ascii.eqb c ":" then Some (EmptyString, s')
      else match cut_colon s' with
           | Some (a, b) => Some (String c a, b)
           | None => None
           end
  end.

(** [s.split(":", 1)]: one piece without a colon, two pieces otherwise. *)
Definition split_colon_1 (s : string) : list string :=
  match cut_colon s with
  | Some (a, b) => [a; b]
  | None => [s]
  end.

(** [l[i]] for a non-negative index. *)
Definition index {A : Type} (l : list A) (i : nat) : Result A :=
  match nth_error l i with
  | Some x => Ok x
  | None => Raise IndexError
  end.

(** [c.isspace()] on the code points below 256: TAB..CR, FS..US, space,
    NEL and the no-break space. *)
Definition isspace (c : ascii) : bool :=
  let n := N_of_ascii c in
  ((9 <=? n) && (n <=? 13) || (28 <=? n) && (n <=? 32) ||
   (n =? 133) || (n =? 160))%N.

(** [s.rstrip()]: the trailing run of whitespace is removed. *)
Fixpoint rstrip (s : string) : string :=
  match s with
  | EmptyString => EmptyString
  | String c s' =>
      match rstrip s' with
      | EmptyString => if isspace c then EmptyString else String c EmptyString
      | r => String c r
      end
  end.

(** [c.lower()] on the code points below 256: A..Z and the capital
    letters of Latin-1 (all of U+00C0..U+00DE but the multiplication
    sign) move up by 32. *)
Definition lower_char (c : ascii) : ascii :=
  let n := N_of_ascii c in
  if ((65 <=? n) && (n <=? 90) ||
      (192 <=? n) && (n <=? 222) && negb (n =? 215))%N
  then ascii_of_N (n + 32)
  else c.

Fixpoint lower (s : string) : string :=
  match s with
  | EmptyString => EmptyString
  | String c s' => String (lower_char c) (lower s')
  end.

(** Python floats, as far as truth value and comparison with a bool need
    them. *)
Inductive pyfloat : Type :=
| Finite (q : Q)
| Infinite (negative : bool)
| NaN.

(** The values [json.loads] can return. *)
#[local] Set Warnings "-register-all".
Inductive pyval : Type :=
| PNone
| PBool (b : bool)
| PInt (n : Z)
| PFloat (f : pyfloat)
| PStr (s : string)
| PList (l : list pyval)
| PDict (d : list (string * pyval)).
#[local] Set Warnings "register-all".

(** [bool(v)]. *)
Definition truthy (v : pyval) : bool :=
  match v with
  | PNone => false
  | PBool b => b
  | PInt n => negb (Z.eqb n 0)
  | PFloat (Finite q) => negb (Qeq_bool q 0)
  | PFloat _ => true
  | PStr s => negb (String.eqb s EmptyString)
  | PList l => match l with [] => false | _ => true end
  | PDict d => match d with [] => false | _ => true end
  end.

(** [v and w], both operands already evaluated. *)
Definition and_ (v w : pyval) : pyval := if truthy v then w else v.

(** [v == b] for a bool [b]: bool is a subclass of int, so [1 == True]. *)
Definition eq_bool (v : pyval) (b : bool) : bool :=
  match v with
  | PBool c => Bool.eqb c b
  | PInt n => Z.eqb n (if b then 1 else 0)
  | PFloat (Finite q) => Qeq_bool q (if b then 1 else 0)
  | _ => false
  end.

(** [a == s] where [a] is a string or [None]. *)
Definition eq_optstr (a : option string) (s : string) : bool :=
  match a with
  | Some t => String.eqb t s
  | None => false
  end.

(** *** json.loads

    The decoder skips JSON whitespace, scans one value and accepts only
    whitespace after it.  The scan of the three literals is the library's;
    the scan of every other document (strings, numbers, arrays, objects)
    is the parameter [scan_other]. *)

Definition json_space (c : ascii) : bool :=
  Ascii.eqb c " " || Ascii.eqb c "009" || Ascii.eqb c "010" || Ascii.eqb c "013".

Fixpoint skip_json_ws (s : string) : string :=
  match s with
  | EmptyString => EmptyString
  | String c s' => if json_space c then skip_json_ws s' else s
  end.

Fixpoint drop (n : nat) (s : string) : string :=
  match n, s with
  | O, _ => s
  | S _, EmptyString => EmptyString
  | S n', String _ s' => drop n' s'
  end.

Section Json.

Variable scan_other : string -> Result (pyval * string).

Definition scan_once (s : string) : Result (pyval * string) :=
  match s with
  | EmptyString => Raise JSONDecodeError
  | String c _ =>
      if Ascii.eqb c "n" && prefix "null" s then Ok (PNone, drop 4 s)
      else if Ascii.eqb c "t" && prefix "true" s then Ok (PBool true, drop 4 s)
      else if Ascii.eqb c "f" && prefix "false" s then Ok (PBool false, drop 5 s)
      else scan_other s
  end.

Definition json_loads (s : string) : Result pyval :=
  match scan_once (skip_json_ws s) with
  | Ok (v, rest) =>
      match skip_json_ws rest with
      | EmptyString => Ok v
      | _ => Raise JSONDecodeError
      end
  | Raise e => Raise e
  end.

End Json.

End Py.
Import Py.

(* ===================================================================== *)
(** ** Processes, the host and the world *)
(* ===================================================================== *)

(** [pathlib.Path], seen through [str(p)] and [str(p.parent)]. *)
Record Path : Type := mkPath {
  path_str : string;
  parent_str : string
}.

(** Where the standard error of a child process goes: left alone,
    [subprocess.STDOUT] or [subprocess.DEVNULL]. *)
Inductive stderr_mode : Type :=
| StderrInherit
| StderrToStdout
| StderrDevNull.

(** The arguments of one [subprocess.run].  [inv_env] is [None] when the
    environment is inherited and [Some d] for [env_with_path(d)];
    [inv_timeout] is in seconds; stdout is always piped. *)
Record invocation : Type := mkInvocation {
  inv_cmd : list string;
  inv_cwd : string;
  inv_env : option string;
  inv_stderr : stderr_mode;
  inv_timeout : Z
}.

(** What [subprocess.run] does: a completed process with its decoded
    standard output and its return code, or an exception. *)
Inductive outcome : Type :=
| Completed (stdout : string) (returncode : Z)
| Failed (e : exn).

(** [sh.build_opts]. *)
Record BuildOpts : Type := mkBuildOpts {
  enable32 : bool;
  enableDbg : bool;
  enableMoreDeterministic : bool;
  buildWithAsan : bool;
  enableSimulatorArm32 : bool;
  enableSimulatorArm64 : bool
}.

(** The compiled shell object [sh]. *)
Record CompiledShell : Type := mkCompiledShell {
  shell_cache_js_bin_path : Path;
  build_opts : BuildOpts
}.

(** The surroundings of the module: [platform.system()], [os.getcwd()],
    what the processes it starts do, and the part of the [json.loads]
    decoder that is left open. *)
Record Host : Type := mkHost {
  platform_system : string;
  getcwd : string;
  respond : list invocation -> invocation -> outcome;
  json_scan_other : string -> Result (pyval * string)
}.

(** The mutable part: the processes run so far and the shell object. *)
Record world : Type := mkWorld {
  trace : list invocation;
  sh_obj : CompiledShell
}.

(** State and exceptions. *)
Definition M (A : Type) : Type := world -> Result A * world.

Definition ret {A : Type} (a : A) : M A := fun w => (Ok a, w).

Definition raise {A : Type} (e : exn) : M A := fun w => (Raise e, w).

Definition bind {A B : Type} (m : M A) (k : A -> M B) : M B :=
  fun w =>
    match m w with
    | (Ok a, w') => k a w'
    | (Raise e, w') => (Raise e, w')
    end.

Declare Scope py_scope.
Delimit Scope py_scope with py.
Notation "x <- m ;; k" := (bind m (fun x => k))
  (at level 61, m at next level, right associativity) : py_scope.
Notation "m ;; k" := (bind m (fun _ => k))
  (at level 61, right associativity) : py_scope.
Open Scope py_scope.

(** [assert b], with assertions enabled. *)
Definition py_assert (b : bool) : M unit :=
  if b then ret tt else raise AssertionError.

(** A value that is already computed, lifted. *)
Definition lift {A : Type} (r : Result A) : M A := fun w => (r, w).

(** [sh.get_shell_cache_js_bin_path()]. *)
Definition get_shell_cache_js_bin_path : M Path :=
  fun w => (Ok (shell_cache_js_bin_path (sh_obj w)), w).

(** [sh.build_opts.f]. *)
Definition build_opt (f : BuildOpts -> bool) : M bool :=
  fun w => (Ok (f (build_opts (sh_obj w))), w).

(** [v and e], where [e] is evaluated only when [v] is true. *)
Definition and_then (v : pyval) (e : M bool) : M pyval :=
  if truthy v then (b <- e ;; ret (PBool b)) else ret v.

Definition dquote : string := String "034" EmptyString.

(* ===================================================================== *)
(** ** The functions of inspect_shell.py *)
(* ===================================================================== *)

Section InspectShell.

Variable host : Host.

(** [subprocess.run(cmd, cwd=.., env=.., stderr=.., stdout=PIPE,
    timeout=..)], reduced to the decoded output and the return code. *)
Definition subprocess_run (i : invocation) : M (string * Z) :=
  fun w =>
    let w' := mkWorld (trace w ++ [i]) (sh_obj w) in
    match respond host (trace w) i with
    | Completed out rc => (Ok (out, rc), w')
    | Failed e => (Raise e, w')
    end.

(** Test if a binary is 32-bit or 64-bit.  The result is ["32"], ["64"]
    or [None], the value of a Python function that ends without
    [return]. *)
Definition archOfBinary (binary : Path) : M (option string) :=
  r <- subprocess_run
         (mkInvocation ["file"; path_str binary] (getcwd host) None
                       StderrInherit 99) ;;
  let unsplit_file_type := fst r in
  filetype <- lift (index (split_colon_1 unsplit_file_type) 1) ;;
  if String.eqb (platform_system host) "Windows" then
    (py_assert (str_in "MS Windows" filetype) ;;
     ret (Some (if str_in "Intel 80386 32-bit" filetype then "32" else "64")))
  else
    if str_in "32-bit" filetype || str_in "i386" filetype then
      (py_assert (negb (str_in "64-bit" filetype)) ;;
       ret (Some "32"))
    else if str_in "64-bit" filetype then
      (py_assert (negb (str_in "32-bit" filetype)) ;;
       ret (Some "64"))
    else ret None.

(** Construct default parameters needed to run valgrind with. *)
Definition constructVgCmdList (errorCode : Z) : list string :=
  ["valgrind"] ++
  (if String.eqb (platform_system host) "Darwin" then ["--dsymutil=yes"] else []) ++
  [("--error-exitcode=" ++ str_int errorCode)%string;
   "--vex-iropt-register-updates=allregs-at-mem-access";
   "--gen-suppressions=all";
   "--leak-check=full";
   "--errors-for-leak-kinds=definite";
   "--show-leak-kinds=definite";
   "--show-possibly-lost=no";
   "--num-callers=50"].

(** The invocation [testBinary] makes.  The environment is the tag
    [Some d] for [env_with_path(d)], a call that returns on Linux, Darwin
    and Windows. *)
Definition test_invocation (shellPath : Path) (args : list string)
    (useValgrind : bool) (stderr : stderr_mode) : invocation :=
  let test_cmd :=
    (if useValgrind then constructVgCmdList 77 else []) ++
    [path_str shellPath] ++ args in
  mkInvocation test_cmd (getcwd host) (Some (parent_str shellPath)) stderr 999.

(** Test the given shell with the given args.  The source's default
    [stderr=subprocess.STDOUT] is passed by the callers that rely on it. *)
Definition testBinary (shellPath : Path) (args : list string)
    (useValgrind : bool) (stderr : stderr_mode) : M (string * Z) :=
  test_cmd_result <- subprocess_run
                       (test_invocation shellPath args useValgrind stderr) ;;
  let out := fst test_cmd_result in
  let return_code := snd test_cmd_result in
  ret (out, return_code).

(** Return True if the shell likes the args. *)
Definition shellSupports (shellPath : Path) (args : list string) : M bool :=
  r <- testBinary shellPath args false StderrToStdout ;;
  let return_code := snd r in
  if return_code =? 0 then ret true
  else if (1 <=? return_code) && (return_code <=? 3) then ret false
  else raise (Exception ("Unexpected exit code in shellSupports " ++
                         str_int return_code)%string).

(** Test if a binary is a js shell or xpcshell. *)
Definition testJsShellOrXpcshell (s : Path) : M string :=
  b <- shellSupports s ["-e"; "Components"] ;;
  ret (if b then "xpcshell" else "jsShell").

(** The script of a build-configuration query. *)
Definition query_script (parameter : string) : string :=
  ("print(getBuildConfiguration()[" ++ dquote ++ parameter ++ dquote ++ "])")%string.

(** Test if a binary is compiled with specified parameters, in
    getBuildConfiguration(). *)
Definition queryBuildConfiguration (s : Path) (parameter : string) : M pyval :=
  r <- testBinary s ["-e"; query_script parameter] false StderrDevNull ;;
  lift (json_loads (json_scan_other host) (lower (rstrip (fst r)))).

(** Verify that the binary is compiled as intended.  [sh] is the shell
    object of the world. *)
Definition verifyBinary : M unit :=
  binary <- get_shell_cache_js_bin_path ;;
  arch <- archOfBinary binary ;;
  e32 <- build_opt enable32 ;;
  py_assert (eq_optstr arch (if e32 then "32" else "64")) ;;
  dbg <- queryBuildConfiguration binary "debug" ;;
  eDbg <- build_opt enableDbg ;;
  py_assert (eq_bool dbg eDbg) ;;
  det <- queryBuildConfiguration binary "more-deterministic" ;;
  eDet <- build_opt enableMoreDeterministic ;;
  py_assert (eq_bool det eDet) ;;
  asan <- queryBuildConfiguration binary "asan" ;;
  eAsan <- build_opt buildWithAsan ;;
  py_assert (eq_bool asan eAsan) ;;
  sim32 <- queryBuildConfiguration binary "arm-simulator" ;;
  lhs32 <- and_then sim32 (build_opt enable32) ;;
  a32 <- build_opt enableSimulatorArm32 ;;
  py_assert (eq_bool lhs32 a32) ;;
  sim64 <- queryBuildConfiguration binary "arm-simulator" ;;
  lhs64 <- and_then sim64 (b <- build_opt enable32 ;; ret (negb b)) ;;
  a64 <- build_opt enableSimulatorArm64 ;;
  py_assert (eq_bool lhs64 a64).

End InspectShell.

(* ===================================================================== *)
(** ** The module-level tables of library names *)
(* ===================================================================== *)

Definition is_system (h : Host) (name : string) : bool :=
  String.eqb (platform_system h) name.

Definition RUN_MOZGLUE_LIB (h : Host) : string :=
  if is_system h "Windows" then "mozglue.dll"
  else if is_system h "Darwin" then "libmozglue.dylib"
  else if is_system h "Linux" then "libmozglue.so"
  else "".

Definition RUN_NSPR_LIB (h : Host) : string :=
  if is_system h "Windows" then "nspr4.dll" else "".

Definition RUN_PLDS_LIB (h : Host) : string :=
  if is_system h "Windows" then "plds4.dll" else "".

Definition RUN_PLC_LIB (h : Host) : string :=
  if is_system h "Windows" then "plc4.dll" else "".

Definition RUN_TESTPLUG_LIB (h : Host) : string :=
  if is_system h "Windows" then "testplug.dll" else "".

Definition WIN_ICU_VERS : list Z := [59; 60; 61; 62].

Definition RUN_ICUUC_LIB_EXCL_EXT : string := "icuuc".
Definition RUN_ICUUCD_LIB_EXCL_EXT : string := "icuucd".
Definition RUN_ICUIN_LIB_EXCL_EXT : string := "icuin".
Definition RUN_ICUIND_LIB_EXCL_EXT : string := "icuind".
Definition RUN_ICUIO_LIB_EXCL_EXT : string := "icuio".
Definition RUN_ICUIOD_LIB_EXCL_EXT : string := "icuiod".
Definition RUN_ICUDT_LIB_EXCL_EXT : string := "icudt".
Definition RUN_ICUDTD_LIB_EXCL_EXT : string := "icudtd".
Definition RUN_ICUTEST_LIB_EXCL_EXT : string := "icutest".
Definition RUN_ICUTESTD_LIB_EXCL_EXT : string := "icutestd".
Definition RUN_ICUTU_LIB_EXCL_EXT : string := "icutu".
Definition RUN_ICUTUD_LIB_EXCL_EXT : string := "icutud".

(** The twelve names one turn of the loop over [WIN_ICU_VERS] appends. *)
Definition icu_libs_of (icu_ver : Z) : list string :=
  [(RUN_ICUUC_LIB_EXCL_EXT ++ str_int icu_ver ++ ".dll")%string;
   (RUN_ICUUCD_LIB_EXCL_EXT ++ str_int icu_ver ++ ".dll")%string;
   (RUN_ICUIN_LIB_EXCL_EXT ++ str_int icu_ver ++ ".dll")%string;
   (RUN_ICUIND_LIB_EXCL_EXT ++ str_int icu_ver ++ ".dll")%string;
   (RUN_ICUIO_LIB_EXCL_EXT ++ str_int icu_ver ++ ".dll")%string;
   (RUN_ICUIOD_LIB_EXCL_EXT ++ str_int icu_ver ++ ".dll")%string;
   (RUN_ICUDT_LIB_EXCL_EXT ++ str_int icu_ver ++ ".dll")%string;
   (RUN_ICUDTD_LIB_EXCL_EXT ++ str_int icu_ver ++ ".dll")%string;
   (RUN_ICUTEST_LIB_EXCL_EXT ++ str_int icu_ver ++ ".dll")%string;
   (RUN_ICUTESTD_LIB_EXCL_EXT ++ str_int icu_ver ++ ".dll")%string;
   (RUN_ICUTU_LIB_EXCL_EXT ++ str_int icu_ver ++ ".dll")%string;
   (RUN_ICUTUD_LIB_EXCL_EXT ++ str_int icu_ver ++ ".dll")%string].

(** The loop [for icu_ver in vers], appending in order. *)
Fixpoint icu_libs (vers : list Z) : list string :=
  match vers with
  | [] => []
  | icu_ver :: vers' => icu_libs_of icu_ver ++ icu_libs vers'
  end.

(** [ALL_RUN_LIBS] as the module builds it, for a list of ICU versions. *)
Definition all_run_libs_with (h : Host) (vers : list Z) : list string :=
  [RUN_MOZGLUE_LIB h; RUN_NSPR_LIB h; RUN_PLDS_LIB h; RUN_PLC_LIB h] ++
  (if is_system h "Windows" then [RUN_TESTPLUG_LIB h] ++ icu_libs vers else []).

Definition ALL_RUN_LIBS (h : Host) : list string :=
  all_run_libs_with h WIN_ICU_VERS.

(* ===================================================================== *)
(** ** Specification vocabulary *)
(* ===================================================================== *)

(** The invocation of the file-type tool made by [archOfBinary]. *)
Definition file_invocation (h : Host) (binary : Path) : invocation :=
  mkInvocation ["file"; path_str binary] (getcwd h) None StderrInherit 99.

(** The invocation made by [queryBuildConfiguration]. *)
Definition query_invocation (h : Host) (s : Path) (parameter : string) : invocation :=
  test_invocation h s ["-e"; query_script parameter] false StderrDevNull.

(** The six processes of a full verification, in order. *)
Definition verify_plan (h : Host) (binary : Path) : list invocation :=
  [file_invocation h binary;
   query_invocation h binary "debug";
   query_invocation h binary "more-deterministic";
   query_invocation h binary "asan";
   query_invocation h binary "arm-simulator";
   query_invocation h binary "arm-simulator"].

(** The processes a computation started after the world [w]. *)
Definition started_since (w w' : world) : list invocation :=
  skipn (List.length (trace w)) (trace w').

(** The world once the process [i] has been started. *)
Definition after (w : world) (i : invocation) : world :=
  mkWorld (trace w ++ [i]) (sh_obj w).

(** A computation that starts no process and leaves the world alone. *)
Definition silent {A : Type} (m : M A) : Prop :=
  forall w, snd (m w) = w.

(** A computation that starts exactly the process [i], whatever comes of
    it. *)
Definition starts {A : Type} (m : M A) (i : invocation) : Prop :=
  forall w, snd (m w) = after w i.

(** The hosts on which lithium's [env_with_path] returns: it names the
    library path variable for Linux, Darwin and Windows only, and on any
    other platform it raises before [testBinary] reaches [subprocess.run].
    The embedding keeps the environment as a tag of the invocation, so a
    statement that a process of [testBinary] is started holds on these
    hosts. *)
Definition env_with_path_returns (h : Host) : Prop :=
  platform_system h = "Linux" \/ platform_system h = "Darwin" \/
  platform_system h = "Windows".

(** A timeout of tens of seconds, and one of hundreds of seconds. *)
Definition tens_of_seconds (t : Z) : Prop := 10 <= t < 100.
Definition hundreds_of_seconds (t : Z) : Prop := 100 <= t < 1000.

(** Every character of the text is whitespace for [rstrip]. *)
Fixpoint all_space (s : string) : bool :=
  match s with
  | EmptyString => true
  | String c s' => isspace c && all_space s'
  end.

(** The word True, each letter in either case. *)
Definition true_in_any_case (t : string) : Prop :=
  exists c1 c2 c3 c4 : ascii,
    t = String c1 (String c2 (String c3 (String c4 EmptyString))) /\
    (c1 = "T" \/ c1 = "t")%char /\
    (c2 = "R" \/ c2 = "r")%char /\
    (c3 = "U" \/ c3 = "u")%char /\
    (c4 = "E" \/ c4 = "e")%char.

(** What the marker matching of [archOfBinary] makes of a file-type
    description: the form in which the proofs unfold it. *)
Definition marker_verdict (h : Host) (filetype : string) : Result (option string) :=
  if String.eqb (platform_system h) "Windows" then
    if str_in "MS Windows" filetype
    then Ok (Some (if str_in "Intel 80386 32-bit" filetype then "32" else "64"))
    else Raise AssertionError
  else if str_in "32-bit" filetype || str_in "i386" filetype then
    if str_in "64-bit" filetype then Raise AssertionError else Ok (Some "32")
  else if str_in "64-bit" filetype then
    if str_in "32-bit" filetype then Raise AssertionError else Ok (Some "64")
  else Ok None.

(** A computation leaves the shell object of the store as it found it. *)
Definition preserves_shell {A : Type} (m : M A) : Prop :=
  forall w, sh_obj (snd (m w)) = sh_obj w.

(** A computation starts the processes of [plan] in order, stops at the
    first exception, and has started all of them when it returns. *)
Definition runs_within {A : Type} (m : M A) (plan : list invocation) : Prop :=
  forall w, exists done rest,
    plan = done ++ rest /\
    trace (snd (m w)) = trace w ++ done /\
    (forall a, fst (m w) = Ok a -> rest = []).

(** The first four checks of [verifyBinary] pass from [w] and leave the
    world [w4]. *)
Definition first_four_pass (h : Host) (w w4 : world) : Prop :=
  let binary := shell_cache_js_bin_path (sh_obj w) in
  let o := build_opts (sh_obj w) in
  exists arch dbg det asan w1 w2 w3,
    archOfBinary h binary w = (Ok arch, w1) /\
    eq_optstr arch (if enable32 o then "32" else "64") = true /\
    queryBuildConfiguration h binary "debug" w1 = (Ok dbg, w2) /\
    eq_bool dbg (enableDbg o) = true /\
    queryBuildConfiguration h binary "more-deterministic" w2 = (Ok det, w3) /\
    eq_bool det (enableMoreDeterministic o) = true /\
    queryBuildConfiguration h binary "asan" w3 = (Ok asan, w4) /\
    eq_bool asan (buildWithAsan o) = true.

(** *** The state machine of the specification

    The verifier as the specification words it: six steps, each a probe
    with the comparison of its result, run in order until one fails.
    [verifyBinary] is compared with it below. *)

Definition check_arch (h : Host) (binary : Path) (o : BuildOpts) : M bool :=
  arch <- archOfBinary h binary ;;
  ret (eq_optstr arch (if enable32 o then "32" else "64")).

Definition check_field (h : Host) (binary : Path) (parameter : string)
    (expected : bool) : M bool :=
  v <- queryBuildConfiguration h binary parameter ;;
  ret (eq_bool v expected).

Definition check_arm (h : Host) (binary : Path) (side expected : bool) : M bool :=
  v <- queryBuildConfiguration h binary "arm-simulator" ;;
  ret (eq_bool (and_ v (PBool side)) expected).

Definition verify_steps (h : Host) (binary : Path) (o : BuildOpts) : list (M bool) :=
  [check_arch h binary o;
   check_field h binary "debug" (enableDbg o);
   check_field h binary "more-deterministic" (enableMoreDeterministic o);
   check_field h binary "asan" (buildWithAsan o);
   check_arm h binary (enable32 o) (enableSimulatorArm32 o);
   check_arm h binary (negb (enable32 o)) (enableSimulatorArm64 o)].

Fixpoint run_steps (steps : list (M bool)) : M unit :=
  match steps with
  | [] => ret tt
  | step :: rest => passed <- step ;; py_assert passed ;; run_steps rest
  end.

(** *** Concrete hosts and worlds *)

Module Scenario.

Definition js : Path := mkPath "/build/dist/bin/js" "/build/dist/bin".

(** A host whose every process prints [out] and exits with [rc]. *)
Definition constant_host (system out : string) (rc : Z) : Host :=
  mkHost system "/home/fuzz" (fun _ _ => Completed out rc)
         (fun _ => Raise JSONDecodeError).

(** A host whose every process runs out of time. *)
Definition hanging_host : Host :=
  mkHost "Linux" "/home/fuzz" (fun _ _ => Failed TimeoutExpired)
         (fun _ => Raise JSONDecodeError).

(** A Linux host with a 64-bit shell that reports false for every field
    of its build configuration. *)
Definition plain64_host : Host :=
  mkHost "Linux" "/home/fuzz"
         (fun _ i =>
            match inv_cmd i with
            | "file" :: _ =>
                Completed "/build/dist/bin/js: ELF 64-bit LSB executable, x86-64" 0
            | _ => Completed ("false" ++ String "010" EmptyString)%string 0
            end)
         (fun _ => Raise JSONDecodeError).

(** The text True in mixed case, followed by a carriage return and a
    line feed. *)
Definition shouted_true : string :=
  ("TrUe" ++ String "013" (String "010" EmptyString))%string.

(** A 64-bit shell built with the ARM simulator: true for the field
    arm-simulator, false for the others. *)
Definition arm_sim_host : Host :=
  mkHost "Linux" "/home/fuzz"
         (fun _ i =>
            match inv_cmd i with
            | "file" :: _ =>
                Completed "/build/dist/bin/js: ELF 64-bit LSB executable, x86-64" 0
            | [_; _; script] =>
                if str_in "arm-simulator" script
                then Completed ("true" ++ String "010" EmptyString)%string 0
                else Completed ("false" ++ String "010" EmptyString)%string 0
            | _ => Completed EmptyString 2
            end)
         (fun _ => Raise JSONDecodeError).

Definition opts (e32 : bool) : BuildOpts :=
  mkBuildOpts e32 false false false false false.

Definition start (e32 : bool) : world :=
  mkWorld [] (mkCompiledShell js (opts e32)).

(** The world once the first [n] processes of the plan have been started
    from [start false]. *)
Definition reached (h : Host) (n : nat) : world :=
  mkWorld (firstn n (verify_plan h js)) (mkCompiledShell js (opts false)).

End Scenario.

(** *** Further vocabulary and hosts *)

(** [s.endswith(suffix)], as a proposition. *)
Definition ends_with (suffix s : string) : Prop :=
  exists p : string, s = (p ++ suffix)%string.

(** The text is one of the two answers of [testJsShellOrXpcshell]. *)
Definition shell_kind (s : string) : Prop := s = "xpcshell" \/ s = "jsShell".

(** The process is the file tool on [binary], or [binary] itself with a
    script of [queryBuildConfiguration]. *)
Definition inspects (binary : Path) (i : invocation) : Prop :=
  inv_cmd i = ["file"; path_str binary] \/
  exists parameter, inv_cmd i = [path_str binary; "-e"; query_script parameter].

Module Cases.

(** A host that answers the first process with one text and every later
    process with another. *)
Definition two_answers (first later : string) : Host :=
  mkHost "Linux" "/home/fuzz"
         (fun t _ =>
            match t with
            | [] => Completed first 0
            | _ => Completed later 1
            end)
         (fun _ => Raise JSONDecodeError).

(** A host on which no process can be started. *)
Definition broken_host : Host :=
  mkHost "Linux" "/home/fuzz" (fun _ _ => Failed OSError)
         (fun _ => Raise JSONDecodeError).

(** A 64-bit shell that prints null for every field. *)
Definition null_host : Host :=
  mkHost "Linux" "/home/fuzz"
         (fun _ i =>
            match inv_cmd i with
            | "file" :: _ =>
                Completed "/build/dist/bin/js: ELF 64-bit LSB executable, x86-64" 0
            | _ => Completed ("null" ++ String "010" EmptyString)%string 0
            end)
         (fun _ => Raise JSONDecodeError).

End Cases.

(* ===================================================================== *)
(** ** Lemmas on the Python primitives *)
(* ===================================================================== *)

Lemma str_int_inj (a b : Z) : str_int a = str_int b -> a = b.
Proof.
  unfold str_int. intros E.
  assert (I : forall z, NilZero.int_of_string (NilZero.string_of_int (Z.to_int z))
                        = Some (Z.to_int z)).
  { intros z. apply NilZero.isi; destruct z; simpl; try discriminate.
    - intros [= F]. now apply (DecimalPos.Unsigned.to_uint_nonnil p).
    - intros [= F]. now apply (DecimalPos.Unsigned.to_uint_nonnil p). }
  assert (T : Some (Z.to_int a) = Some (Z.to_int b)).
  { rewrite <- (I a), <- (I b), E. reflexivity. }
  injection T as T.
  rewrite <- (DecimalZ.of_to a), <- (DecimalZ.of_to b), T. reflexivity.
Qed.

Lemma str_in_colon_cons (c : ascii) (s : string) :
  str_in ":" (String c s) = Ascii.eqb c ":" || str_in ":" s.
Proof.
  cbn [str_in prefix]. destruct (ascii_dec ":" c) as [<- | N].
  - destruct s; reflexivity.
  - destruct (Ascii.eqb_spec c ":") as [-> | _]; [now elim N | reflexivity].
Qed.

(** Without a colon there is nothing to cut. *)
Lemma cut_colon_none (s : string) :
  str_in ":" s = false <-> cut_colon s = None.
Proof.
  induction s as [| c s IH].
  - simpl. tauto.
  - rewrite str_in_colon_cons. simpl.
    destruct (Ascii.eqb c ":"); simpl.
    + split; discriminate.
    + rewrite IH. destruct (cut_colon s) as [[a b] |]; split; congruence.
Qed.

(** The cut is at the first colon. *)
Lemma cut_colon_app (pre desc : string) :
  str_in ":" pre = false ->
  cut_colon (pre ++ String ":" desc) = Some (pre, desc).
Proof.
  induction pre as [| c pre IH]; intros H.
  - reflexivity.
  - rewrite str_in_colon_cons in H. apply orb_false_elim in H as [Hc Hp].
    simpl. rewrite Hc, (IH Hp). reflexivity.
Qed.

Lemma cut_colon_some (s a b : string) :
  cut_colon s = Some (a, b) ->
  s = (a ++ String ":" b)%string /\ str_in ":" a = false.
Proof.
  revert a. induction s as [| c s IH]; intros a H; simpl in H.
  - discriminate.
  - destruct (Ascii.eqb_spec c ":") as [-> | N].
    + injection H as <- <-. split; reflexivity.
    + destruct (cut_colon s) as [[a' b'] |]; [| discriminate].
      injection H as <- <-. destruct (IH a' eq_refl) as [-> Ha].
      split; [reflexivity |].
      rewrite str_in_colon_cons, Ha.
      destruct (Ascii.eqb_spec c ":"); [contradiction | reflexivity].
Qed.

Lemma rstrip_all_space (ws : string) :
  all_space ws = true -> rstrip ws = EmptyString.
Proof.
  induction ws as [| c ws IH]; simpl; intros H.
  - reflexivity.
  - apply andb_prop in H as [Hc Hw]. rewrite (IH Hw), Hc. reflexivity.
Qed.

(** Trailing whitespace does not change what [rstrip] returns. *)
Lemma rstrip_app_space (t ws : string) :
  all_space ws = true -> rstrip (t ++ ws) = rstrip t.
Proof.
  intros H. induction t as [| c t IH]; simpl.
  - now apply rstrip_all_space.
  - rewrite IH. reflexivity.
Qed.

(* ===================================================================== *)
(** ** Lemmas on the monad *)
(* ===================================================================== *)

Lemma bind_ok {A B : Type} (m : M A) (k : A -> M B) w a w1 :
  m w = (Ok a, w1) -> bind m k w = k a w1.
Proof. unfold bind. now intros ->. Qed.

Lemma py_assert_run (b : bool) (w : world) :
  py_assert b w = (if b then Ok tt else Raise AssertionError, w).
Proof. now destruct b. Qed.

Lemma and_then_run (v : pyval) (f : BuildOpts -> bool) (w : world) :
  and_then v (build_opt f) w
  = (Ok (and_ v (PBool (f (build_opts (sh_obj w))))), w).
Proof. unfold and_then, and_. now destruct (truthy v). Qed.

Lemma and_then_not_run (v : pyval) (f : BuildOpts -> bool) (w : world) :
  and_then v (b <- build_opt f ;; ret (negb b)) w
  = (Ok (and_ v (PBool (negb (f (build_opts (sh_obj w)))))), w).
Proof. unfold and_then, and_. now destruct (truthy v). Qed.

(** *** The store is left alone *)

Create HintDb frame.

Lemma preserves_ret {A : Type} (a : A) : preserves_shell (ret a).
Proof. now intros w. Qed.

Lemma preserves_raise {A : Type} (e : exn) : preserves_shell (@raise A e).
Proof. now intros w. Qed.

Lemma preserves_lift {A : Type} (r : Result A) : preserves_shell (lift r).
Proof. now intros w. Qed.

Lemma preserves_assert (b : bool) : preserves_shell (py_assert b).
Proof. intros w. now destruct b. Qed.

Lemma preserves_build_opt (f : BuildOpts -> bool) : preserves_shell (build_opt f).
Proof. now intros w. Qed.

Lemma preserves_get_path : preserves_shell get_shell_cache_js_bin_path.
Proof. now intros w. Qed.

Lemma preserves_bind {A B : Type} (m : M A) (k : A -> M B) :
  preserves_shell m -> (forall a, preserves_shell (k a)) ->
  preserves_shell (bind m k).
Proof.
  intros Hm Hk w. unfold bind. specialize (Hm w).
  destruct (m w) as [[a | e] w1]; simpl in *.
  - now rewrite Hk.
  - assumption.
Qed.

Lemma preserves_if {A : Type} (b : bool) (m1 m2 : M A) :
  preserves_shell m1 -> preserves_shell m2 ->
  preserves_shell (if b then m1 else m2).
Proof. now destruct b. Qed.

Lemma preserves_subprocess_run (h : Host) (i : invocation) :
  preserves_shell (subprocess_run h i).
Proof.
  intros w. unfold subprocess_run. now destruct (respond h (trace w) i).
Qed.

#[local] Hint Resolve preserves_ret preserves_raise preserves_lift
  preserves_assert preserves_build_opt preserves_get_path
  preserves_subprocess_run : frame.

Ltac frame :=
  repeat first
    [ apply preserves_bind; [| intros ?]
    | apply preserves_if
    | solve [auto with frame] ].

Lemma preserves_testBinary (h : Host) shellPath args useValgrind stderr :
  preserves_shell (testBinary h shellPath args useValgrind stderr).
Proof. unfold testBinary. frame. Qed.

Lemma preserves_archOfBinary (h : Host) (binary : Path) :
  preserves_shell (archOfBinary h binary).
Proof. unfold archOfBinary. frame. Qed.

Lemma preserves_shellSupports (h : Host) shellPath args :
  preserves_shell (shellSupports h shellPath args).
Proof. unfold shellSupports. frame. Qed.

Lemma preserves_queryBuildConfiguration (h : Host) (s : Path) (parameter : string) :
  preserves_shell (queryBuildConfiguration h s parameter).
Proof. unfold queryBuildConfiguration. frame. Qed.

Lemma preserves_and_then (v : pyval) (e : M bool) :
  preserves_shell e -> preserves_shell (and_then v e).
Proof. intros H. unfold and_then. frame. Qed.

#[local] Hint Resolve preserves_testBinary preserves_archOfBinary
  preserves_shellSupports preserves_queryBuildConfiguration
  preserves_and_then : frame.

Lemma preserves_verifyBinary (h : Host) : preserves_shell (verifyBinary h).
Proof. unfold verifyBinary. frame. Qed.

(** A run that returns keeps the shell object: the form used when a run
    is known by its equation. *)
Lemma preserved_at {A : Type} (m : M A) (w w' : world) (r : Result A) :
  preserves_shell m -> m w = (r, w') -> sh_obj w' = sh_obj w.
Proof. intros H E. specialize (H w). now rewrite E in H. Qed.

(** *** One process per probe *)

Lemma subprocess_run_eq (h : Host) (i : invocation) (w : world) :
  subprocess_run h i w
  = (match respond h (trace w) i with
     | Completed out rc => Ok (out, rc)
     | Failed e => Raise e
     end, after w i).
Proof. unfold subprocess_run, after. now destruct (respond h (trace w) i). Qed.

Lemma testBinary_eq (h : Host) shellPath args useValgrind stderr (w : world) :
  let i := test_invocation h shellPath args useValgrind stderr in
  testBinary h shellPath args useValgrind stderr w
  = (match respond h (trace w) i with
     | Completed out rc => Ok (out, rc)
     | Failed e => Raise e
     end, after w i).
Proof.
  intros i. unfold testBinary, bind. fold i. rewrite subprocess_run_eq.
  now destruct (respond h (trace w) i).
Qed.

Lemma shellSupports_eq (h : Host) shellPath args (w : world) :
  let i := test_invocation h shellPath args false StderrToStdout in
  shellSupports h shellPath args w
  = (match respond h (trace w) i with
     | Completed _ rc =>
         if rc =? 0 then Ok true
         else if (1 <=? rc) && (rc <=? 3) then Ok false
         else Raise (Exception ("Unexpected exit code in shellSupports " ++
                                str_int rc)%string)
     | Failed e => Raise e
     end, after w i).
Proof.
  intros i. unfold shellSupports, bind. rewrite testBinary_eq. fold i.
  destruct (respond h (trace w) i) as [out rc | e]; [| reflexivity].
  cbn [snd]. destruct (rc =? 0); [reflexivity |].
  now destruct ((1 <=? rc) && (rc <=? 3)).
Qed.

Lemma queryBuildConfiguration_eq (h : Host) (s : Path) (parameter : string) (w : world) :
  let i := query_invocation h s parameter in
  queryBuildConfiguration h s parameter w
  = (match respond h (trace w) i with
     | Completed out _ => json_loads (json_scan_other h) (lower (rstrip out))
     | Failed e => Raise e
     end, after w i).
Proof.
  intros i. unfold queryBuildConfiguration, bind. rewrite testBinary_eq.
  fold (query_invocation h s parameter). fold i.
  now destruct (respond h (trace w) i).
Qed.

Lemma silent_ret {A : Type} (a : A) : silent (ret a).
Proof. now intros w. Qed.

Lemma silent_lift {A : Type} (r : Result A) : silent (lift r).
Proof. now intros w. Qed.

Lemma silent_assert (b : bool) : silent (py_assert b).
Proof. intros w. now destruct b. Qed.

Lemma silent_build_opt (f : BuildOpts -> bool) : silent (build_opt f).
Proof. now intros w. Qed.

Lemma silent_if {A : Type} (b : bool) (m1 m2 : M A) :
  silent m1 -> silent m2 -> silent (if b then m1 else m2).
Proof. now destruct b. Qed.

Lemma silent_bind {A B : Type} (m : M A) (k : A -> M B) :
  silent m -> (forall a, silent (k a)) -> silent (bind m k).
Proof.
  intros Hm Hk w. unfold bind. specialize (Hm w).
  destruct (m w) as [[a | e] w1]; simpl in Hm; subst w1.
  - apply Hk.
  - reflexivity.
Qed.

Lemma starts_bind {A B : Type} (m : M A) (k : A -> M B) (i : invocation) :
  starts m i -> (forall a, silent (k a)) -> starts (bind m k) i.
Proof.
  intros Hm Hk w. unfold bind. specialize (Hm w).
  destruct (m w) as [[a | e] w1]; simpl in Hm; subst w1.
  - apply Hk.
  - reflexivity.
Qed.

Lemma starts_subprocess_run (h : Host) (i : invocation) :
  starts (subprocess_run h i) i.
Proof. intros w. now rewrite subprocess_run_eq. Qed.

Ltac quiet :=
  repeat first
    [ apply silent_ret | apply silent_lift | apply silent_assert
    | apply silent_build_opt
    | apply silent_if
    | apply silent_bind; [| intros ?] ].

Lemma starts_archOfBinary (h : Host) (binary : Path) :
  starts (archOfBinary h binary) (file_invocation h binary).
Proof.
  unfold archOfBinary. apply starts_bind.
  - apply starts_subprocess_run.
  - intros r. quiet.
Qed.

Lemma starts_queryBuildConfiguration (h : Host) (s : Path) (parameter : string) :
  starts (queryBuildConfiguration h s parameter) (query_invocation h s parameter).
Proof. intros w. now rewrite queryBuildConfiguration_eq. Qed.

(** *** The order of the processes *)

Lemma runs_within_silent {A : Type} (m : M A) : silent m -> runs_within m [].
Proof.
  intros H w. exists [], []. split; [reflexivity | split].
  - now rewrite H, app_nil_r.
  - reflexivity.
Qed.

Lemma runs_within_bind_silent {A B : Type} (m : M A) (k : A -> M B) plan :
  silent m -> (forall a, runs_within (k a) plan) ->
  runs_within (bind m k) plan.
Proof.
  intros Hm Hk w. unfold bind. specialize (Hm w).
  destruct (m w) as [[a | e] w1]; simpl in Hm; subst w1.
  - apply Hk.
  - exists [], plan. simpl. rewrite app_nil_r. repeat split. discriminate.
Qed.

Lemma runs_within_bind_starts {A B : Type} (m : M A) (k : A -> M B) i plan :
  starts m i -> (forall a, runs_within (k a) plan) ->
  runs_within (bind m k) (i :: plan).
Proof.
  intros Hm Hk w. unfold bind. specialize (Hm w).
  destruct (m w) as [[a | e] w1]; simpl in Hm; subst w1.
  - destruct (Hk a (after w i)) as (done & rest & -> & Ht & Hr).
    exists (i :: done), rest. repeat split.
    + rewrite Ht. simpl. now rewrite <- app_assoc.
    + assumption.
  - exists [i], plan. repeat split. discriminate.
Qed.

Lemma silent_and_then (v : pyval) (e : M bool) : silent e -> silent (and_then v e).
Proof.
  intros H w. unfold and_then. destruct (truthy v); [| reflexivity].
  unfold bind. specialize (H w). destruct (e w) as [[b | x] w1]; assumption.
Qed.

Lemma silent_bind_ret {A B : Type} (m : M A) (f : A -> B) :
  silent m -> silent (bind m (fun a => ret (f a))).
Proof.
  intros H w. unfold bind. specialize (H w).
  destruct (m w) as [[a | e] w1]; assumption.
Qed.

Create HintDb plan.

#[local] Hint Resolve silent_build_opt silent_assert silent_and_then
  silent_bind_ret starts_archOfBinary starts_queryBuildConfiguration
  runs_within_silent : plan.

Ltac plan :=
  repeat first
    [ apply runs_within_bind_silent; [solve [auto with plan] | intros ?]
    | apply runs_within_bind_starts; [solve [auto with plan] | intros ?]
    | solve [auto with plan] ].

(** After reading the path of the binary, [verifyBinary] follows the
    plan of six processes. *)
Lemma verifyBinary_follows_plan (h : Host) (w : world) :
  exists done rest,
    verify_plan h (shell_cache_js_bin_path (sh_obj w)) = done ++ rest /\
    trace (snd (verifyBinary h w)) = trace w ++ done /\
    (forall a, fst (verifyBinary h w) = Ok a -> rest = []).
Proof.
  unfold verifyBinary.
  rewrite (bind_ok get_shell_cache_js_bin_path _ w _ w eq_refl).
  generalize (shell_cache_js_bin_path (sh_obj w)). intros binary.
  revert w.
  match goal with
  | |- forall w : world, exists done rest, _ = _ /\ trace (snd (?m w)) = _ /\ _ =>
      change (runs_within m (verify_plan h binary))
  end.
  unfold verify_plan. plan.
Qed.

Lemma archOfBinary_eq (h : Host) (binary : Path) (w : world) :
  let i := file_invocation h binary in
  archOfBinary h binary w
  = (match respond h (trace w) i with
     | Completed out _ =>
         match cut_colon out with
         | Some (_, filetype) => marker_verdict h filetype
         | None => Raise IndexError
         end
     | Failed e => Raise e
     end, after w i).
Proof.
  intros i. subst i. unfold file_invocation, archOfBinary, bind.
  rewrite subprocess_run_eq.
  match goal with
  | |- context [respond h (trace w) ?i] =>
      destruct (respond h (trace w) i) as [out rc | e]; [| reflexivity]
  end.
  cbn [fst lift]. unfold split_colon_1, index.
  destruct (cut_colon out) as [[pre ft] |]; cbn [nth_error]; [| reflexivity].
  unfold marker_verdict.
  destruct (String.eqb (platform_system h) "Windows").
  - now destruct (str_in "MS Windows" ft).
  - destruct (str_in "32-bit" ft || str_in "i386" ft).
    + now destruct (str_in "64-bit" ft).
    + destruct (str_in "64-bit" ft); [| reflexivity].
      now destruct (str_in "32-bit" ft).
Qed.

Lemma marker_verdict_not_IndexError (h : Host) (filetype : string) :
  marker_verdict h filetype <> Raise IndexError.
Proof.
  unfold marker_verdict.
  repeat match goal with
         | |- context [if ?b then _ else _] => destruct b
         end; discriminate.
Qed.

(* ===================================================================== *)
(** ** Exit codes: shellSupports and testJsShellOrXpcshell *)
(* ===================================================================== *)

(** C1.  When the probe process completes with exit code [rc],
    [shellSupports] returns True for 0, returns False for 1, 2 and 3, and
    for every other code raises an exception whose message ends with the
    decimal text of the code; two different codes never give the same
    message text. *)
Theorem shellSupports_exit_code
    (h : Host) (shellPath : Path) (args : list string) (w : world)
    (out : string) (rc : Z) :
  respond h (trace w) (test_invocation h shellPath args false StderrToStdout)
    = Completed out rc ->
  let r := fst (shellSupports h shellPath args w) in
  (rc = 0 -> r = Ok true) /\
  (rc = 1 \/ rc = 2 \/ rc = 3 -> r = Ok false) /\
  (rc < 0 \/ 3 < rc ->
     r = Raise (Exception ("Unexpected exit code in shellSupports " ++
                           str_int rc)%string)) /\
  (forall rc' : Z, str_int rc' = str_int rc -> rc' = rc).
Proof.
  intros H r. subst r. rewrite shellSupports_eq, H. cbn [fst].
  repeat split.
  - now intros ->.
  - intros [-> | [-> | ->]]; reflexivity.
  - intros Hrc.
    destruct (Z.eqb_spec rc 0) as [-> | _]; [lia |].
    destruct (Z.leb_spec 1 rc), (Z.leb_spec rc 3); cbn [andb];
      try reflexivity; lia.
  - intros rc'. apply str_int_inj.
Qed.

Lemma shellSupports_exit_code_witness :
  respond (Scenario.constant_host "Linux" "" 139) []
    (test_invocation (Scenario.constant_host "Linux" "" 139) Scenario.js
                     ["-e"; "Components"] false StderrToStdout)
    = Completed "" 139 /\
  fst (shellSupports (Scenario.constant_host "Linux" "" 139) Scenario.js
                     ["-e"; "Components"] (Scenario.start false))
    = Raise (Exception "Unexpected exit code in shellSupports 139").
Proof.
  split; [reflexivity |].
  apply (shellSupports_exit_code (Scenario.constant_host "Linux" "" 139)
           Scenario.js ["-e"; "Components"] (Scenario.start false) "" 139
           eq_refl).
  right. lia.
Defined.

(** The exit codes the specification lists as unexpected. *)
Example shellSupports_minus_one :
  fst (shellSupports (Scenario.constant_host "Linux" "" (-1)) Scenario.js
                     ["-j"; "-e"; "42"] (Scenario.start false))
  = Raise (Exception "Unexpected exit code in shellSupports -1").
Proof. reflexivity. Qed.

Example shellSupports_four :
  fst (shellSupports (Scenario.constant_host "Linux" "" 4) Scenario.js
                     ["-j"; "-e"; "42"] (Scenario.start false))
  = Raise (Exception "Unexpected exit code in shellSupports 4").
Proof. reflexivity. Qed.

(** C6.  [testJsShellOrXpcshell] starts one process, the binary with the
    arguments -e Components, and answers from the verdict of
    [shellSupports] alone: xpcshell for exit code 0, jsShell for the exit
    codes 1, 2 and 3; an exception of [shellSupports] is passed on. *)
Theorem testJsShellOrXpcshell_verdict
    (h : Host) (s : Path) (w : world) (out : string) (rc : Z) :
  let i := test_invocation h s ["-e"; "Components"] false StderrToStdout in
  respond h (trace w) i = Completed out rc ->
  inv_cmd i = [path_str s; "-e"; "Components"] /\
  snd (testJsShellOrXpcshell h s w) = after w i /\
  (rc = 0 -> fst (testJsShellOrXpcshell h s w) = Ok "xpcshell") /\
  (rc = 1 \/ rc = 2 \/ rc = 3 ->
     fst (testJsShellOrXpcshell h s w) = Ok "jsShell") /\
  (forall b, fst (shellSupports h s ["-e"; "Components"] w) = Ok b ->
     fst (testJsShellOrXpcshell h s w)
     = Ok (if b then "xpcshell" else "jsShell")) /\
  (forall e, fst (shellSupports h s ["-e"; "Components"] w) = Raise e ->
     fst (testJsShellOrXpcshell h s w) = Raise e).
Proof.
  intros i H. unfold testJsShellOrXpcshell, bind.
  rewrite shellSupports_eq. fold i. rewrite H. cbn [fst snd].
  split; [reflexivity |].
  split.
  { destruct (rc =? 0); [reflexivity |].
    now destruct ((1 <=? rc) && (rc <=? 3)). }
  split; [now intros -> |].
  split; [intros [-> | [-> | ->]]; reflexivity |].
  split.
  - intros b Hb. destruct (rc =? 0).
    + now injection Hb as <-.
    + destruct ((1 <=? rc) && (rc <=? 3)); [| discriminate].
      now injection Hb as <-.
  - intros e He. destruct (rc =? 0); [discriminate |].
    destruct ((1 <=? rc) && (rc <=? 3)); [discriminate |].
    now injection He as <-.
Qed.

Lemma testJsShellOrXpcshell_verdict_witness :
  respond (Scenario.constant_host "Linux" "" 2) []
    (test_invocation (Scenario.constant_host "Linux" "" 2) Scenario.js
                     ["-e"; "Components"] false StderrToStdout)
    = Completed "" 2 /\
  fst (testJsShellOrXpcshell (Scenario.constant_host "Linux" "" 2) Scenario.js
                             (Scenario.start false))
    = Ok "jsShell".
Proof.
  split; [reflexivity |].
  apply (testJsShellOrXpcshell_verdict (Scenario.constant_host "Linux" "" 2)
           Scenario.js (Scenario.start false) "" 2 eq_refl).
  right. left. reflexivity.
Defined.

Example testJsShellOrXpcshell_zero :
  fst (testJsShellOrXpcshell (Scenario.constant_host "Linux" "" 0) Scenario.js
                             (Scenario.start false))
  = Ok "xpcshell".
Proof. reflexivity. Qed.

(* ===================================================================== *)
(** ** The architecture probe: archOfBinary *)
(* ===================================================================== *)

(** The description is what follows the first colon of the tool's
    output. *)
Lemma archOfBinary_described
    (h : Host) (binary : Path) (w : world) (pre desc : string) (rc : Z) :
  str_in ":" pre = false ->
  respond h (trace w) (file_invocation h binary)
    = Completed (pre ++ String ":" desc) rc ->
  fst (archOfBinary h binary w) = marker_verdict h desc.
Proof.
  intros Hpre H. rewrite archOfBinary_eq. cbn [fst].
  now rewrite H, (cut_colon_app pre desc Hpre).
Qed.

(** C2.  Off Windows, with the description [desc] after the first colon of
    the tool's output: a description with "32-bit" or "i386" gives "32",
    unless it also has "64-bit", which raises AssertionError; a
    description with "64-bit" and neither of the other two markers gives
    "64"; a description with both "32-bit" and "64-bit" raises. *)
Theorem archOfBinary_markers
    (h : Host) (binary : Path) (w : world) (pre desc : string) (rc : Z) :
  platform_system h <> "Windows" ->
  str_in ":" pre = false ->
  respond h (trace w) (file_invocation h binary)
    = Completed (pre ++ String ":" desc) rc ->
  let r := fst (archOfBinary h binary w) in
  (str_in "32-bit" desc = true \/ str_in "i386" desc = true ->
     (str_in "64-bit" desc = false -> r = Ok (Some "32")) /\
     (str_in "64-bit" desc = true -> r = Raise AssertionError)) /\
  (str_in "64-bit" desc = true ->
   str_in "32-bit" desc = false -> str_in "i386" desc = false ->
     r = Ok (Some "64")) /\
  (str_in "32-bit" desc = true -> str_in "64-bit" desc = true ->
     r = Raise AssertionError).
Proof.
  intros Hsys Hpre H r. subst r.
  rewrite (archOfBinary_described h binary w pre desc rc Hpre H).
  unfold marker_verdict.
  apply String.eqb_neq in Hsys. rewrite Hsys.
  split; [| split].
  - intros H32.
    assert (O : str_in "32-bit" desc || str_in "i386" desc = true).
    { destruct H32 as [-> | ->]; [reflexivity | apply orb_true_r]. }
    rewrite O. split; now intros ->.
  - intros -> -> ->. reflexivity.
  - intros -> ->. reflexivity.
Qed.

Lemma archOfBinary_markers_witness :
  platform_system (Scenario.constant_host "Linux"
                     "/build/dist/bin/js: ELF 64-bit and 32-bit" 0)
    <> "Windows" /\
  str_in ":" "/build/dist/bin/js" = false /\
  fst (archOfBinary (Scenario.constant_host "Linux"
                       "/build/dist/bin/js: ELF 64-bit and 32-bit" 0)
                    Scenario.js (Scenario.start false))
    = Raise AssertionError.
Proof.
  split; [discriminate |]. split; [reflexivity |].
  apply (archOfBinary_markers
           (Scenario.constant_host "Linux"
              "/build/dist/bin/js: ELF 64-bit and 32-bit" 0)
           Scenario.js (Scenario.start false)
           "/build/dist/bin/js" " ELF 64-bit and 32-bit" 0);
    first [discriminate | reflexivity].
Defined.

Example archOfBinary_elf64 :
  fst (archOfBinary Scenario.plain64_host Scenario.js (Scenario.start false))
  = Ok (Some "64").
Proof. reflexivity. Qed.

Example archOfBinary_i386 :
  fst (archOfBinary (Scenario.constant_host "Darwin"
                       "/build/dist/bin/js: Mach-O executable i386" 0)
                    Scenario.js (Scenario.start true))
  = Ok (Some "32").
Proof. reflexivity. Qed.

(** Off Windows, a description with none of the three markers makes
    [archOfBinary] return [None]: no branch returns and no assertion is
    reached. *)
Lemma archOfBinary_unmarked
    (h : Host) (binary : Path) (w : world) (pre desc : string) (rc : Z) :
  platform_system h <> "Windows" ->
  str_in ":" pre = false ->
  respond h (trace w) (file_invocation h binary)
    = Completed (pre ++ String ":" desc) rc ->
  str_in "32-bit" desc = false ->
  str_in "i386" desc = false ->
  str_in "64-bit" desc = false ->
  archOfBinary h binary w = (Ok None, after w (file_invocation h binary)).
Proof.
  intros Hsys Hpre H H32 H386 H64.
  rewrite archOfBinary_eq, H, (cut_colon_app pre desc Hpre).
  unfold marker_verdict. apply String.eqb_neq in Hsys.
  now rewrite Hsys, H32, H386, H64.
Qed.

(** C7.  On Linux, when the file-type tool prints the description "data",
    which has none of the markers, [archOfBinary] returns [None] and
    raises nothing. *)
Theorem archOfBinary_unmarked_data :
  let h := Scenario.constant_host "Linux" "/build/dist/bin/js: data" 0 in
  str_in "32-bit" " data" = false /\
  str_in "i386" " data" = false /\
  str_in "64-bit" " data" = false /\
  archOfBinary h Scenario.js (Scenario.start false)
  = (Ok None, after (Scenario.start false) (file_invocation h Scenario.js)).
Proof. repeat split. Qed.

(** C10.  When the file-type tool completes, [archOfBinary] raises
    IndexError exactly when its output has no colon: with a colon the
    result is that of the marker matching, which never is IndexError. *)
Theorem archOfBinary_needs_colon
    (h : Host) (binary : Path) (w : world) (out : string) (rc : Z) :
  respond h (trace w) (file_invocation h binary) = Completed out rc ->
  (str_in ":" out = false ->
     archOfBinary h binary w
     = (Raise IndexError, after w (file_invocation h binary))) /\
  (str_in ":" out = true ->
     exists pre desc,
       out = (pre ++ String ":" desc)%string /\ str_in ":" pre = false /\
       fst (archOfBinary h binary w) = marker_verdict h desc) /\
  (fst (archOfBinary h binary w) = Raise IndexError <-> str_in ":" out = false).
Proof.
  intros H. rewrite archOfBinary_eq, H. cbn [fst].
  pose proof (cut_colon_none out) as N.
  destruct (cut_colon out) as [[pre desc] |] eqn:E.
  - assert (C : str_in ":" out = true).
    { destruct (str_in ":" out); [reflexivity |].
      destruct N as [N _]. now specialize (N eq_refl). }
    destruct (cut_colon_some out pre desc E) as [-> Hpre].
    repeat split.
    + intros F. rewrite C in F. discriminate.
    + intros _. now exists pre, desc.
    + intros F. now apply marker_verdict_not_IndexError in F.
    + intros F. rewrite C in F. discriminate.
  - assert (C : str_in ":" out = false) by now apply N.
    repeat split.
    + intros F. rewrite C in F. discriminate.
    + intros _. exact C.
Qed.

Lemma archOfBinary_needs_colon_witness :
  respond (Scenario.constant_host "Linux" "cannot open" 1) []
    (file_invocation (Scenario.constant_host "Linux" "cannot open" 1) Scenario.js)
    = Completed "cannot open" 1 /\
  fst (archOfBinary (Scenario.constant_host "Linux" "cannot open" 1)
                    Scenario.js (Scenario.start false))
    = Raise IndexError.
Proof.
  split; [reflexivity |].
  apply (archOfBinary_needs_colon
           (Scenario.constant_host "Linux" "cannot open" 1)
           Scenario.js (Scenario.start false) "cannot open" 1 eq_refl).
  reflexivity.
Defined.

(* ===================================================================== *)
(** ** Build-configuration queries: queryBuildConfiguration *)
(* ===================================================================== *)

(** The word True in any case, stripped and lowered, is the JSON literal. *)
Lemma lower_rstrip_true (t ws : string) :
  true_in_any_case t -> all_space ws = true ->
  lower (rstrip (t ++ ws)) = "true".
Proof.
  intros (c1 & c2 & c3 & c4 & -> & H1 & H2 & H3 & H4) Hws.
  rewrite (rstrip_app_space _ ws Hws).
  destruct H1 as [-> | ->], H2 as [-> | ->], H3 as [-> | ->], H4 as [-> | ->];
    reflexivity.
Qed.

(** C4.  When the probe completes, [queryBuildConfiguration] returns what
    [json.loads] makes of the standard output with its trailing
    whitespace stripped and its letters lowered, whatever the exit code;
    for the output True, in any letter case and followed by any
    whitespace, that is the JSON boolean true. *)
Theorem queryBuildConfiguration_parses_stdout
    (h : Host) (s : Path) (parameter : string) (w : world)
    (out : string) (rc : Z) :
  respond h (trace w) (query_invocation h s parameter) = Completed out rc ->
  queryBuildConfiguration h s parameter w
  = (json_loads (json_scan_other h) (lower (rstrip out)),
     after w (query_invocation h s parameter)) /\
  (forall t ws : string,
     out = (t ++ ws)%string -> true_in_any_case t -> all_space ws = true ->
     fst (queryBuildConfiguration h s parameter w) = Ok (PBool true)).
Proof.
  intros H. rewrite queryBuildConfiguration_eq, H. split; [reflexivity |].
  intros t ws -> Ht Hws. cbn [fst].
  now rewrite (lower_rstrip_true t ws Ht Hws).
Qed.

Lemma queryBuildConfiguration_parses_stdout_witness :
  respond (Scenario.constant_host "Linux" Scenario.shouted_true 0) []
    (query_invocation (Scenario.constant_host "Linux" Scenario.shouted_true 0)
                      Scenario.js "debug")
    = Completed Scenario.shouted_true 0 /\
  true_in_any_case "TrUe" /\
  all_space (String "013" (String "010" EmptyString)) = true /\
  fst (queryBuildConfiguration
         (Scenario.constant_host "Linux" Scenario.shouted_true 0)
         Scenario.js "debug" (Scenario.start false))
    = Ok (PBool true).
Proof.
  assert (T : true_in_any_case "TrUe").
  { exists "T"%char, "r"%char, "U"%char, "e"%char. repeat split; auto. }
  split; [reflexivity |]. split; [exact T |]. split; [reflexivity |].
  apply (proj2 (queryBuildConfiguration_parses_stdout
                  (Scenario.constant_host "Linux" Scenario.shouted_true 0)
                  Scenario.js "debug" (Scenario.start false)
                  Scenario.shouted_true 0 eq_refl)
               "TrUe" (String "013" (String "010" EmptyString)) eq_refl T eq_refl).
Defined.

Example queryBuildConfiguration_false :
  fst (queryBuildConfiguration Scenario.plain64_host Scenario.js "asan"
         (Scenario.start false))
  = Ok (PBool false).
Proof. reflexivity. Qed.

(** The text undefined, printed for a field the shell does not know, is
    not one of the literals: the rest of the decoder decides. *)
Example queryBuildConfiguration_undefined :
  fst (queryBuildConfiguration (Scenario.constant_host "Linux" "undefined" 0)
         Scenario.js "asan" (Scenario.start false))
  = Raise JSONDecodeError.
Proof. reflexivity. Qed.

(* ===================================================================== *)
(** ** The verifier: verifyBinary *)
(* ===================================================================== *)

Lemma bind_unfold {A B : Type} (m : M A) (k : A -> M B) (w : world) :
  bind m k w
  = match m w with
    | (Ok a, w') => k a w'
    | (Raise e, w') => (Raise e, w')
    end.
Proof. reflexivity. Qed.

Lemma get_path_step {B : Type} (k : Path -> M B) (w : world) :
  bind get_shell_cache_js_bin_path k w = k (shell_cache_js_bin_path (sh_obj w)) w.
Proof. reflexivity. Qed.

Lemma build_opt_step {B : Type} (f : BuildOpts -> bool) (k : bool -> M B) (w : world) :
  bind (build_opt f) k w = k (f (build_opts (sh_obj w))) w.
Proof. reflexivity. Qed.

Lemma assert_step {B : Type} (b : bool) (k : unit -> M B) (w : world) :
  bind (py_assert b) k w = if b then k tt w else (Raise AssertionError, w).
Proof. now destruct b. Qed.

Lemma and_then_step {B : Type} (v : pyval) (f : BuildOpts -> bool)
    (k : pyval -> M B) (w : world) :
  bind (and_then v (build_opt f)) k w
  = k (and_ v (PBool (f (build_opts (sh_obj w))))) w.
Proof. unfold bind. now rewrite and_then_run. Qed.

Lemma and_then_not_step {B : Type} (v : pyval) (f : BuildOpts -> bool)
    (k : pyval -> M B) (w : world) :
  bind (and_then v (b <- build_opt f ;; ret (negb b))) k w
  = k (and_ v (PBool (negb (f (build_opts (sh_obj w)))))) w.
Proof. unfold bind at 1. now rewrite and_then_not_run. Qed.

Lemma shell_after_archOfBinary h binary w r w' :
  archOfBinary h binary w = (r, w') -> sh_obj w' = sh_obj w.
Proof. apply preserved_at, preserves_archOfBinary. Qed.

Lemma shell_after_query h s parameter w r w' :
  queryBuildConfiguration h s parameter w = (r, w') -> sh_obj w' = sh_obj w.
Proof. apply preserved_at, preserves_queryBuildConfiguration. Qed.

(** In a hypothesis that is a run of the verifier: take the next process
    of the run, which either raised, closing the goal by the tactic
    [tac], or returned, and then normalise the reads of the options and
    the assertion that follow it. *)
Ltac next_process H v w' E S tac :=
  rewrite bind_unfold in H;
  match type of H with
  | context [match ?m ?w with _ => _ end] =>
      destruct (m w) as [[v | ?] w'] eqn:E; [| tac]
  end;
  first [ pose proof (shell_after_archOfBinary _ _ _ _ _ E) as S
        | pose proof (shell_after_query _ _ _ _ _ _ E) as S ];
  rewrite ?and_then_step, ?and_then_not_step, ?build_opt_step in H;
  rewrite ?S in H.

Ltac next_assert H C tac :=
  first [ rewrite assert_step in H | rewrite py_assert_run in H ];
  match type of H with
  | context [if ?b then _ else _] => destruct b eqn:C; [| tac]
  end.

(** The same steps forwards, in the goal, from an equation of the run of
    the next process. *)
Ltac pass_process E S :=
  rewrite (bind_ok _ _ _ _ _ E);
  rewrite ?and_then_step, ?and_then_not_step, ?build_opt_step;
  rewrite ?S.

Ltac pass_assert C :=
  first [ rewrite assert_step | rewrite py_assert_run ];
  rewrite C.

(** C3.  From a world where the first four checks pass, [verifyBinary]
    returns exactly when the two arm-simulator queries return and
    ([sim32] and enable32) equals enableSimulatorArm32 and ([sim64] and
    not enable32) equals enableSimulatorArm64; a failure of either
    equality raises AssertionError right after the query in question.
    The "and" and the equality are Python's; on two booleans they are the
    conjunction and the equality of booleans. *)
Theorem verifyBinary_arm_simulator (h : Host) (w : world) :
  let binary := shell_cache_js_bin_path (sh_obj w) in
  let o := build_opts (sh_obj w) in
  (forall w' : world,
     verifyBinary h w = (Ok tt, w') <->
     exists w4 sim32 w5 sim64,
       first_four_pass h w w4 /\
       queryBuildConfiguration h binary "arm-simulator" w4 = (Ok sim32, w5) /\
       queryBuildConfiguration h binary "arm-simulator" w5 = (Ok sim64, w') /\
       eq_bool (and_ sim32 (PBool (enable32 o))) (enableSimulatorArm32 o) = true /\
       eq_bool (and_ sim64 (PBool (negb (enable32 o)))) (enableSimulatorArm64 o)
         = true) /\
  (forall w4 sim32 w5,
     first_four_pass h w w4 ->
     queryBuildConfiguration h binary "arm-simulator" w4 = (Ok sim32, w5) ->
     eq_bool (and_ sim32 (PBool (enable32 o))) (enableSimulatorArm32 o) = false ->
     verifyBinary h w = (Raise AssertionError, w5)) /\
  (forall w4 sim32 w5 sim64 w6,
     first_four_pass h w w4 ->
     queryBuildConfiguration h binary "arm-simulator" w4 = (Ok sim32, w5) ->
     eq_bool (and_ sim32 (PBool (enable32 o))) (enableSimulatorArm32 o) = true ->
     queryBuildConfiguration h binary "arm-simulator" w5 = (Ok sim64, w6) ->
     eq_bool (and_ sim64 (PBool (negb (enable32 o)))) (enableSimulatorArm64 o)
       = false ->
     verifyBinary h w = (Raise AssertionError, w6)) /\
  (forall b e x : bool,
     eq_bool (and_ (PBool b) (PBool e)) x = Bool.eqb (b && e) x).
Proof.
  intros binary o.
  assert (Forwards : forall w4 sim32 w5,
    first_four_pass h w w4 ->
    queryBuildConfiguration h binary "arm-simulator" w4 = (Ok sim32, w5) ->
    sh_obj w5 = sh_obj w /\
    verifyBinary h w
    = if eq_bool (and_ sim32 (PBool (enable32 o))) (enableSimulatorArm32 o)
      then match queryBuildConfiguration h binary "arm-simulator" w5 with
           | (Ok sim64, w6) =>
               (if eq_bool (and_ sim64 (PBool (negb (enable32 o))))
                           (enableSimulatorArm64 o)
                then Ok tt else Raise AssertionError, w6)
           | (Raise e, w6) => (Raise e, w6)
           end
      else (Raise AssertionError, w5)).
  { intros w4 sim32 w5
      (arch & dbg & det & asan & w1 & w2 & w3 & E1 & C1 & E2 & C2 & E3 & C3
       & E4 & C4) E5.
    fold binary in E1, E2, E3, E4. fold o in C1, C2, C3, C4.
    pose proof (shell_after_archOfBinary _ _ _ _ _ E1) as S1.
    pose proof (shell_after_query _ _ _ _ _ _ E2) as S2. rewrite S1 in S2.
    pose proof (shell_after_query _ _ _ _ _ _ E3) as S3. rewrite S2 in S3.
    pose proof (shell_after_query _ _ _ _ _ _ E4) as S4. rewrite S3 in S4.
    pose proof (shell_after_query _ _ _ _ _ _ E5) as S5. rewrite S4 in S5.
    split; [exact S5 |].
    unfold verifyBinary. rewrite get_path_step. fold binary.
    pass_process E1 S1. fold o. pass_assert C1.
    pass_process E2 S2. fold o. pass_assert C2.
    pass_process E3 S3. fold o. pass_assert C3.
    pass_process E4 S4. fold o. pass_assert C4.
    pass_process E5 S5. fold o.
    rewrite assert_step.
    destruct (eq_bool (and_ sim32 (PBool (enable32 o))) (enableSimulatorArm32 o));
      [| reflexivity].
    rewrite bind_unfold.
    destruct (queryBuildConfiguration h binary "arm-simulator" w5)
      as [[sim64 | e] w6] eqn:E6; [| reflexivity].
    pose proof (shell_after_query _ _ _ _ _ _ E6) as S6. rewrite S5 in S6.
    rewrite ?and_then_not_step, ?build_opt_step, S6. fold o.
    apply py_assert_run. }
  split; [| split; [| split]]; [| | | now intros [|] [|] [|]].
  - intros w'. split.
    + intros H. unfold verifyBinary in H. rewrite get_path_step in H.
      fold binary in H.
      next_process H arch w1 E1 S1 discriminate. fold o in H.
      next_assert H C1 discriminate.
      next_process H dbg w2 E2 S2 discriminate. rewrite ?S1 in H. fold o in H.
      next_assert H C2 discriminate.
      next_process H det w3 E3 S3 discriminate. rewrite ?S2, ?S1 in H.
      fold o in H.
      next_assert H C3 discriminate.
      next_process H asan w4 E4 S4 discriminate. rewrite ?S3, ?S2, ?S1 in H.
      fold o in H.
      next_assert H C4 discriminate.
      next_process H sim32 w5 E5 S5 discriminate.
      rewrite ?S4, ?S3, ?S2, ?S1 in H. fold o in H.
      next_assert H C5 discriminate.
      next_process H sim64 w6 E6 S6 discriminate.
      rewrite ?S5, ?S4, ?S3, ?S2, ?S1 in H. fold o in H.
      next_assert H C6 discriminate.
      injection H as <-.
      exists w4, sim32, w5, sim64. repeat split; try assumption.
      exists arch, dbg, det, asan, w1, w2, w3. fold binary. fold o.
      repeat split; assumption.
    + intros (w4 & sim32 & w5 & sim64 & F & E5 & E6 & C5 & C6).
      destruct (Forwards w4 sim32 w5 F E5) as [_ ->].
      now rewrite C5, E6, C6.
  - intros w4 sim32 w5 F E5 C5.
    destruct (Forwards w4 sim32 w5 F E5) as [_ ->]. now rewrite C5.
  - intros w4 sim32 w5 sim64 w6 F E5 C5 E6 C6.
    destruct (Forwards w4 sim32 w5 F E5) as [_ ->]. now rewrite C5, E6, C6.
Qed.

Lemma verifyBinary_arm_simulator_witness :
  first_four_pass Scenario.arm_sim_host (Scenario.start false)
                  (Scenario.reached Scenario.arm_sim_host 4) /\
  queryBuildConfiguration Scenario.arm_sim_host Scenario.js "arm-simulator"
      (Scenario.reached Scenario.arm_sim_host 5)
    = (Ok (PBool true), Scenario.reached Scenario.arm_sim_host 6) /\
  verifyBinary Scenario.arm_sim_host (Scenario.start false)
    = (Raise AssertionError, Scenario.reached Scenario.arm_sim_host 6).
Proof.
  assert (F : first_four_pass Scenario.arm_sim_host (Scenario.start false)
                (Scenario.reached Scenario.arm_sim_host 4)).
  { exists (Some "64"), (PBool false), (PBool false), (PBool false),
      (Scenario.reached Scenario.arm_sim_host 1),
      (Scenario.reached Scenario.arm_sim_host 2),
      (Scenario.reached Scenario.arm_sim_host 3).
    repeat split. }
  split; [exact F |]. split; [reflexivity |].
  apply (proj1 (proj2 (proj2
           (verifyBinary_arm_simulator Scenario.arm_sim_host (Scenario.start false))))
           (Scenario.reached Scenario.arm_sim_host 4) (PBool true)
           (Scenario.reached Scenario.arm_sim_host 5) (PBool true)
           (Scenario.reached Scenario.arm_sim_host 6)
           F eq_refl eq_refl eq_refl eq_refl).
Defined.

Lemma bind_assoc {A B C : Type} (m : M A) (f : A -> M B) (g : B -> M C) (w : world) :
  bind (bind m f) g w = bind m (fun a => bind (f a) g) w.
Proof. unfold bind. now destruct (m w) as [[a | e] w1]. Qed.

Lemma bind_ret {A B : Type} (a : A) (k : A -> M B) (w : world) :
  bind (ret a) k w = k a w.
Proof. reflexivity. Qed.

(** A step that does not return True ends the run of the steps, in the
    world the step left. *)
Lemma run_steps_fail_fast (before : list (M bool)) (step : M bool)
    (rest : list (M bool)) (w wk w' : world) (r : Result bool) :
  run_steps before w = (Ok tt, wk) ->
  step wk = (r, w') ->
  r <> Ok true ->
  exists e, run_steps (before ++ step :: rest) w = (Raise e, w').
Proof.
  revert w. induction before as [| s before IH]; intros w Hb Hs Hr.
  - injection Hb as <-. cbn [app run_steps]. rewrite bind_unfold, Hs.
    destruct r as [[|] | e].
    + now elim Hr.
    + now exists AssertionError.
    + now exists e.
  - cbn [app run_steps] in *. rewrite bind_unfold in *.
    destruct (s w) as [[b | e] w1]; [| discriminate].
    rewrite assert_step in *. destruct b; [| discriminate].
    now apply IH.
Qed.

(** [verifyBinary] is the run of the six steps of the specification. *)
Lemma verifyBinary_run_steps (h : Host) (w : world) :
  verifyBinary h w
  = run_steps (verify_steps h (shell_cache_js_bin_path (sh_obj w))
                            (build_opts (sh_obj w))) w.
Proof.
  unfold verifyBinary. rewrite get_path_step.
  set (binary := shell_cache_js_bin_path (sh_obj w)).
  set (o := build_opts (sh_obj w)).
  unfold verify_steps, run_steps, check_arch, check_field, check_arm.
  assert (S0 : sh_obj w = sh_obj w) by reflexivity.
  revert S0. generalize w at 1 3 4. intros w0 S0.
  repeat
    (rewrite bind_assoc;
     match goal with
     | |- bind ?m _ ?w1 = bind ?m _ ?w1 =>
         rewrite !(bind_unfold m);
         let E := fresh "E" in
         destruct (m w1) as [[? | ?] ?] eqn:E; [| reflexivity];
         first [ apply shell_after_archOfBinary in E
               | apply shell_after_query in E ];
         rewrite S0 in E; clear S0; rename E into S0
     end;
     rewrite bind_ret;
     rewrite ?and_then_step, ?and_then_not_step, ?build_opt_step, ?S0;
     fold o;
     rewrite ?assert_step;
     match goal with
     | |- (if ?b then _ else _) = _ => destruct b; [| reflexivity]
     | |- py_assert ?b _ = _ => destruct b; reflexivity
     end).
Qed.

Lemma started_since_app (w w' : world) (l : list invocation) :
  trace w' = trace w ++ l -> started_since w w' = l.
Proof.
  unfold started_since. intros ->. induction (trace w) as [| i t IH].
  - reflexivity.
  - exact IH.
Qed.

(** C5.  [verifyBinary] is the run of the six checks in the order
    architecture, debug, more-deterministic, asan, arm-simulator for 32
    bits, arm-simulator for 64 bits; the first check that does not pass
    ends the run in the world that check left, so that the processes
    started are a beginning of the plan of six; with enable32 set and an
    architecture probe that answers "64" the run ends with AssertionError
    after the file-type process alone. *)
Theorem verifyBinary_fail_fast (h : Host) (w : world) :
  let binary := shell_cache_js_bin_path (sh_obj w) in
  let o := build_opts (sh_obj w) in
  verifyBinary h w = run_steps (verify_steps h binary o) w /\
  (forall before step rest wk r w',
     verify_steps h binary o = before ++ step :: rest ->
     run_steps before w = (Ok tt, wk) ->
     step wk = (r, w') ->
     r <> Ok true ->
     exists e, verifyBinary h w = (Raise e, w')) /\
  (exists done rest,
     verify_plan h binary = done ++ rest /\
     started_since w (snd (verifyBinary h w)) = done /\
     (forall a, fst (verifyBinary h w) = Ok a -> rest = [])) /\
  (forall w1,
     enable32 o = true ->
     archOfBinary h binary w = (Ok (Some "64"), w1) ->
     verifyBinary h w = (Raise AssertionError, w1) /\
     started_since w w1 = [file_invocation h binary]).
Proof.
  intros binary o. split; [apply verifyBinary_run_steps |].
  split; [| split].
  - intros before step rest wk r w' Hsteps Hb Hs Hr.
    rewrite verifyBinary_run_steps. fold binary. fold o. rewrite Hsteps.
    now apply (run_steps_fail_fast before step rest w wk w' r).
  - destruct (verifyBinary_follows_plan h w) as (done & rest & Hp & Ht & Hr).
    exists done, rest. split; [exact Hp |]. split; [| exact Hr].
    now apply started_since_app.
  - intros w1 H32 Harch. split.
    + assert (Hstep : check_arch h binary o w = (Ok false, w1)).
      { unfold check_arch. rewrite (bind_ok _ _ _ _ _ Harch), H32. reflexivity. }
      rewrite verifyBinary_run_steps. fold binary. fold o.
      cbn [verify_steps run_steps].
      rewrite (bind_ok _ _ _ _ _ Hstep). reflexivity.
    + apply started_since_app.
      pose proof (starts_archOfBinary h binary w) as S.
      rewrite Harch in S. cbn [snd] in S. now rewrite S.
Qed.

Lemma verifyBinary_fail_fast_witness :
  enable32 (build_opts (sh_obj (Scenario.start true))) = true /\
  archOfBinary Scenario.plain64_host Scenario.js (Scenario.start true)
    = (Ok (Some "64"),
       after (Scenario.start true)
             (file_invocation Scenario.plain64_host Scenario.js)) /\
  verifyBinary Scenario.plain64_host (Scenario.start true)
    = (Raise AssertionError,
       after (Scenario.start true)
             (file_invocation Scenario.plain64_host Scenario.js)).
Proof.
  split; [reflexivity |]. split; [reflexivity |].
  apply (proj2 (proj2 (proj2
           (verifyBinary_fail_fast Scenario.plain64_host (Scenario.start true))))
           _ eq_refl eq_refl).
Defined.

(** The end-to-end scenario of the specification: a 64-bit shell whose
    build configuration is false throughout, verified against options
    that are false throughout. *)
Example verifyBinary_plain64 :
  fst (verifyBinary Scenario.plain64_host (Scenario.start false)) = Ok tt /\
  trace (snd (verifyBinary Scenario.plain64_host (Scenario.start false)))
  = verify_plan Scenario.plain64_host Scenario.js.
Proof. split; reflexivity. Qed.

(** C9.  Whatever [verifyBinary] does, return or raise, the shell object
    of the store, and with it the record of the six expected options, is
    in the final world what it was in the initial one. *)
Theorem verifyBinary_leaves_config (h : Host) (w : world) :
  sh_obj (snd (verifyBinary h w)) = sh_obj w /\
  build_opts (sh_obj (snd (verifyBinary h w))) = build_opts (sh_obj w) /\
  (forall field : BuildOpts -> bool,
     field (build_opts (sh_obj (snd (verifyBinary h w))))
     = field (build_opts (sh_obj w))).
Proof.
  pose proof (preserves_verifyBinary h w) as E.
  split; [exact E |]. split; [now rewrite E |]. intros field. now rewrite E.
Qed.

(** The record is untouched also by a run that aborts at the first
    check. *)
Example aborted_run_keeps_options :
  fst (verifyBinary Scenario.plain64_host (Scenario.start true))
    = Raise AssertionError /\
  build_opts (sh_obj (snd (verifyBinary Scenario.plain64_host (Scenario.start true))))
    = Scenario.opts true.
Proof. split; reflexivity. Qed.

(* ===================================================================== *)
(** ** Timeouts *)
(* ===================================================================== *)

(** C8 as stated fails: the feature probe of [shellSupports] does not run
    under a timeout of tens of seconds, its process gets the 999 seconds
    of [testBinary]. *)
Lemma shellSupports_timeout_not_short :
  ~ (forall (h : Host) (shellPath : Path) (args : list string) (w : world)
            (i : invocation),
       In i (started_since w (snd (shellSupports h shellPath args w))) ->
       tens_of_seconds (inv_timeout i)).
Proof.
  intros H.
  specialize (H (Scenario.constant_host "Linux" "" 0) Scenario.js
                ["-e"; "Components"] (Scenario.start false)
                (test_invocation (Scenario.constant_host "Linux" "" 0)
                   Scenario.js ["-e"; "Components"] false StderrToStdout)).
  assert (T : tens_of_seconds 999) by (apply H; left; reflexivity).
  unfold tens_of_seconds in T. lia.
Qed.

(** C8, as the code has it.  Every process started through [testBinary],
    for a feature probe of [shellSupports] or [testJsShellOrXpcshell] as
    for a build-configuration query or any other test, is given 999
    seconds, hundreds of seconds; the file-type process of [archOfBinary]
    alone is given 99 seconds, tens of seconds.  When the process runs out
    of time the function raises TimeoutExpired and that process stays the
    only one it started: for the functions that go through [testBinary]
    this is on the hosts where [env_with_path] returns, the others never
    get as far as starting the process. *)
Theorem probe_timeouts (h : Host) (w : world) :
  (forall shellPath args useValgrind stderr,
     let i := test_invocation h shellPath args useValgrind stderr in
     inv_timeout i = 999 /\ hundreds_of_seconds (inv_timeout i) /\
     Forall (fun j => inv_timeout j = 999)
            (started_since w
               (snd (testBinary h shellPath args useValgrind stderr w))) /\
     (env_with_path_returns h ->
      respond h (trace w) i = Failed TimeoutExpired ->
      testBinary h shellPath args useValgrind stderr w
      = (Raise TimeoutExpired, after w i))) /\
  (forall shellPath args,
     let i := test_invocation h shellPath args false StderrToStdout in
     inv_timeout i = 999 /\ hundreds_of_seconds (inv_timeout i) /\
     Forall (fun j => inv_timeout j = 999)
            (started_since w (snd (shellSupports h shellPath args w))) /\
     (env_with_path_returns h ->
      respond h (trace w) i = Failed TimeoutExpired ->
      shellSupports h shellPath args w = (Raise TimeoutExpired, after w i))) /\
  (forall s,
     let i := test_invocation h s ["-e"; "Components"] false StderrToStdout in
     inv_timeout i = 999 /\ hundreds_of_seconds (inv_timeout i) /\
     Forall (fun j => inv_timeout j = 999)
            (started_since w (snd (testJsShellOrXpcshell h s w))) /\
     (env_with_path_returns h ->
      respond h (trace w) i = Failed TimeoutExpired ->
      testJsShellOrXpcshell h s w = (Raise TimeoutExpired, after w i))) /\
  (forall s parameter,
     let i := query_invocation h s parameter in
     inv_timeout i = 999 /\ hundreds_of_seconds (inv_timeout i) /\
     Forall (fun j => inv_timeout j = 999)
            (started_since w (snd (queryBuildConfiguration h s parameter w))) /\
     (env_with_path_returns h ->
      respond h (trace w) i = Failed TimeoutExpired ->
      queryBuildConfiguration h s parameter w
      = (Raise TimeoutExpired, after w i))) /\
  (forall binary,
     let i := file_invocation h binary in
     inv_timeout i = 99 /\ tens_of_seconds (inv_timeout i) /\
     Forall (fun j => inv_timeout j = 99)
            (started_since w (snd (archOfBinary h binary w))) /\
     (respond h (trace w) i = Failed TimeoutExpired ->
      archOfBinary h binary w = (Raise TimeoutExpired, after w i))).
Proof.
  assert (L : hundreds_of_seconds 999) by (unfold hundreds_of_seconds; lia).
  assert (S : tens_of_seconds 99) by (unfold tens_of_seconds; lia).
  assert (One : forall (i : invocation) (t : Z),
            inv_timeout i = t ->
            Forall (fun j => inv_timeout j = t) (started_since w (after w i))).
  { intros i t Hi. rewrite (started_since_app w (after w i) [i] eq_refl).
    apply Forall_cons; [exact Hi | apply Forall_nil]. }
  split; [| split; [| split; [| split]]].
  - intros shellPath args useValgrind stderr i. rewrite testBinary_eq. fold i.
    split; [reflexivity | split; [exact L | split]].
    + now apply One.
    + now intros _ ->.
  - intros shellPath args i. rewrite shellSupports_eq. fold i.
    split; [reflexivity | split; [exact L | split]].
    + now apply One.
    + now intros _ ->.
  - intros s i.
    assert (E : testJsShellOrXpcshell h s w
                = (match fst (shellSupports h s ["-e"; "Components"] w) with
                   | Ok b => Ok (if b then "xpcshell" else "jsShell")
                   | Raise e => Raise e
                   end, after w i)).
    { unfold testJsShellOrXpcshell. rewrite bind_unfold, shellSupports_eq.
      fold i. cbn [fst].
      destruct (respond h (trace w) i) as [out rc | e]; [| reflexivity].
      destruct (rc =? 0); [reflexivity |].
      now destruct ((1 <=? rc) && (rc <=? 3)). }
    rewrite E. split; [reflexivity | split; [exact L | split]].
    + now apply One.
    + intros _ T. rewrite shellSupports_eq. fold i. now rewrite T.
  - intros s parameter i. rewrite queryBuildConfiguration_eq. fold i.
    split; [reflexivity | split; [exact L | split]].
    + now apply One.
    + now intros _ ->.
  - intros binary i. rewrite archOfBinary_eq. fold i.
    split; [reflexivity | split; [exact S | split]].
    + now apply One.
    + now intros ->.
Qed.

Lemma probe_timeouts_witness :
  env_with_path_returns Scenario.hanging_host /\
  respond Scenario.hanging_host []
    (test_invocation Scenario.hanging_host Scenario.js ["-e"; "Components"]
                     false StderrToStdout)
    = Failed TimeoutExpired /\
  shellSupports Scenario.hanging_host Scenario.js ["-e"; "Components"]
                (Scenario.start false)
    = (Raise TimeoutExpired,
       after (Scenario.start false)
             (test_invocation Scenario.hanging_host Scenario.js
                              ["-e"; "Components"] false StderrToStdout)).
Proof.
  assert (P : env_with_path_returns Scenario.hanging_host) by now left.
  pose proof (proj1 (proj2 (probe_timeouts Scenario.hanging_host
                              (Scenario.start false)))
                    Scenario.js ["-e"; "Components"]) as [_ [_ [_ Ht]]].
  split; [exact P |]. split; [reflexivity |].
  exact (Ht P eq_refl).
Defined.

(* ===================================================================== *)
(** ** Further properties of the architecture probe *)
(* ===================================================================== *)

(** A marker found in a text is found in every text that ends with it. *)
Lemma str_in_app_r (m p s : string) :
  str_in m s = true -> str_in m (p ++ s) = true.
Proof.
  intros H. induction p as [| c p IH].
  - exact H.
  - cbn [append str_in]. rewrite IH. apply orb_true_r.
Qed.

(** Whatever precedes it, the text after the last colon of interest stays
    at the end of what the cut keeps. *)
Lemma cut_colon_keeps_suffix (pre desc : string) :
  exists a p, cut_colon (pre ++ String ":" desc) = Some (a, (p ++ desc)%string).
Proof.
  induction pre as [| c pre (a & p & IH)].
  - now exists EmptyString, EmptyString.
  - cbn [append cut_colon]. destruct (Ascii.eqb c ":").
    + exists EmptyString, (pre ++ String ":" EmptyString)%string.
      f_equal. f_equal. clear. induction pre as [| d pre IH].
      * reflexivity.
      * cbn [append]. now rewrite IH.
    + rewrite IH. now exists (String c a), p.
Qed.

(** The marker matching off Windows, read backwards: what each answer
    says about the description. *)
Lemma marker_verdict_unix (h : Host) (d : string) :
  platform_system h <> "Windows" ->
  (marker_verdict h d = Ok (Some "32") <->
     str_in "32-bit" d || str_in "i386" d = true /\ str_in "64-bit" d = false) /\
  (marker_verdict h d = Ok (Some "64") <->
     str_in "64-bit" d = true /\ str_in "32-bit" d = false /\
     str_in "i386" d = false) /\
  (marker_verdict h d = Raise AssertionError <->
     str_in "32-bit" d || str_in "i386" d = true /\ str_in "64-bit" d = true) /\
  (marker_verdict h d = Ok None <->
     str_in "32-bit" d = false /\ str_in "i386" d = false /\
     str_in "64-bit" d = false).
Proof.
  intros Hsys. apply String.eqb_neq in Hsys.
  unfold marker_verdict. rewrite Hsys.
  destruct (str_in "32-bit" d), (str_in "i386" d), (str_in "64-bit" d);
    cbn [orb]; repeat split; intros; try discriminate;
    repeat match goal with
           | H : _ /\ _ |- _ => destruct H
           end; try discriminate; auto.
Qed.

(** X1.  On Windows the description must name MS Windows; then the answer is
    "32" exactly for an Intel 80386 32-bit description and "64" for every
    other one, and it is never [None]. *)
Theorem archOfBinary_windows
    (h : Host) (binary : Path) (w : world) (pre desc : string) (rc : Z) :
  platform_system h = "Windows" ->
  str_in ":" pre = false ->
  respond h (trace w) (file_invocation h binary)
    = Completed (pre ++ String ":" desc) rc ->
  let r := fst (archOfBinary h binary w) in
  (str_in "MS Windows" desc = false <-> r = Raise AssertionError) /\
  (str_in "MS Windows" desc = true /\ str_in "Intel 80386 32-bit" desc = true
     <-> r = Ok (Some "32")) /\
  (str_in "MS Windows" desc = true /\ str_in "Intel 80386 32-bit" desc = false
     <-> r = Ok (Some "64")) /\
  r <> Ok None.
Proof.
  intros Hsys Hpre H r. subst r.
  rewrite (archOfBinary_described h binary w pre desc rc Hpre H).
  unfold marker_verdict. rewrite Hsys. cbn [String.eqb Ascii.eqb Bool.eqb].
  destruct (str_in "MS Windows" desc), (str_in "Intel 80386 32-bit" desc);
    repeat split; intros; try discriminate;
    repeat match goal with
           | H : _ /\ _ |- _ => destruct H
           end; try discriminate; auto.
Qed.

Lemma archOfBinary_windows_witness :
  platform_system (Scenario.constant_host "Windows"
      "js.exe: PE32 executable (console) Intel 80386 32-bit, for MS Windows" 0)
    = "Windows" /\
  str_in ":" "js.exe" = false /\
  fst (archOfBinary (Scenario.constant_host "Windows"
         "js.exe: PE32 executable (console) Intel 80386 32-bit, for MS Windows" 0)
         Scenario.js (Scenario.start true))
    = Ok (Some "32").
Proof.
  split; [reflexivity |]. split; [reflexivity |].
  apply (archOfBinary_windows
           (Scenario.constant_host "Windows"
              "js.exe: PE32 executable (console) Intel 80386 32-bit, for MS Windows" 0)
           Scenario.js (Scenario.start true) "js.exe"
           " PE32 executable (console) Intel 80386 32-bit, for MS Windows" 0
           eq_refl eq_refl eq_refl).
  split; reflexivity.
Defined.

(** X2.  Off Windows an answer can be trusted: "64" is returned only for a
    description with "64-bit" and without "32-bit" and "i386", "32" only
    for one with "32-bit" or "i386" and without "64-bit"; AssertionError
    is raised only for a description that has a marker of each kind, so
    the second assertion of the source never fires. *)
Theorem archOfBinary_answer_sound
    (h : Host) (binary : Path) (w : world) (pre desc : string) (rc : Z) :
  platform_system h <> "Windows" ->
  str_in ":" pre = false ->
  respond h (trace w) (file_invocation h binary)
    = Completed (pre ++ String ":" desc) rc ->
  let r := fst (archOfBinary h binary w) in
  (r = Ok (Some "64") ->
     str_in "64-bit" desc = true /\ str_in "32-bit" desc = false /\
     str_in "i386" desc = false) /\
  (r = Ok (Some "32") ->
     (str_in "32-bit" desc = true \/ str_in "i386" desc = true) /\
     str_in "64-bit" desc = false) /\
  (r = Raise AssertionError ->
     (str_in "32-bit" desc = true \/ str_in "i386" desc = true) /\
     str_in "64-bit" desc = true) /\
  (forall a, r = Ok a -> a = Some "32" \/ a = Some "64" \/ a = None).
Proof.
  intros Hsys Hpre H r. subst r.
  rewrite (archOfBinary_described h binary w pre desc rc Hpre H).
  destruct (marker_verdict_unix h desc Hsys) as (H32 & H64 & HA & _).
  split; [apply H64 |]. split; [| split].
  - intros E. apply H32 in E as [E1 E2]. split; [| exact E2].
    now apply orb_true_iff.
  - intros E. apply HA in E as [E1 E2]. split; [| exact E2].
    now apply orb_true_iff.
  - intros a. unfold marker_verdict.
    apply String.eqb_neq in Hsys. rewrite Hsys.
    repeat match goal with
           | |- context [if ?b then _ else _] => destruct b
           end; intros [= <-] || discriminate; auto.
Qed.

Lemma archOfBinary_answer_sound_witness :
  platform_system Scenario.plain64_host <> "Windows" /\
  str_in ":" "/build/dist/bin/js" = false /\
  fst (archOfBinary Scenario.plain64_host Scenario.js (Scenario.start false))
    = Ok (Some "64") /\
  str_in "64-bit" " ELF 64-bit LSB executable, x86-64" = true /\
  str_in "32-bit" " ELF 64-bit LSB executable, x86-64" = false /\
  str_in "i386" " ELF 64-bit LSB executable, x86-64" = false.
Proof.
  split; [discriminate |]. split; [reflexivity |]. split; [reflexivity |].
  apply (proj1 (archOfBinary_answer_sound Scenario.plain64_host Scenario.js
                  (Scenario.start false) "/build/dist/bin/js"
                  " ELF 64-bit LSB executable, x86-64" 0
                  ltac:(discriminate) eq_refl eq_refl)).
  reflexivity.
Defined.

(** X3.  A colon in what precedes the description, as in a path with a drive
    letter, moves the cut forward but loses no marker: off Windows a
    description with "64-bit" is answered "64" or refused, one with
    "32-bit" or "i386" is answered "32" or refused, and neither is ever
    answered with the other size or with [None]. *)
Theorem archOfBinary_markers_survive_colons
    (h : Host) (binary : Path) (w : world) (pre desc : string) (rc : Z) :
  platform_system h <> "Windows" ->
  respond h (trace w) (file_invocation h binary)
    = Completed (pre ++ String ":" desc) rc ->
  let r := fst (archOfBinary h binary w) in
  (str_in "64-bit" desc = true ->
     r = Ok (Some "64") \/ r = Raise AssertionError) /\
  (str_in "32-bit" desc = true \/ str_in "i386" desc = true ->
     r = Ok (Some "32") \/ r = Raise AssertionError).
Proof.
  intros Hsys H r. subst r. rewrite archOfBinary_eq, H. cbn [fst].
  destruct (cut_colon_keeps_suffix pre desc) as (a & p & ->).
  apply String.eqb_neq in Hsys. unfold marker_verdict. rewrite Hsys.
  split.
  - intros M. rewrite (str_in_app_r "64-bit" p desc M).
    destruct (str_in "32-bit" (p ++ desc) || str_in "i386" (p ++ desc)) eqn:E.
    + now right.
    + apply orb_false_elim in E as [-> _]. now left.
  - intros M.
    assert (O : str_in "32-bit" (p ++ desc) || str_in "i386" (p ++ desc) = true).
    { destruct M as [M | M]; rewrite (str_in_app_r _ p desc M);
        [reflexivity | apply orb_true_r]. }
    rewrite O. destruct (str_in "64-bit" (p ++ desc)); [now right | now left].
Qed.

Lemma archOfBinary_markers_survive_colons_witness :
  platform_system (Scenario.constant_host "Linux"
                     "/mnt/c:/build/js: ELF 64-bit LSB executable" 0)
    <> "Windows" /\
  str_in "64-bit" " ELF 64-bit LSB executable" = true /\
  (fst (archOfBinary (Scenario.constant_host "Linux"
                        "/mnt/c:/build/js: ELF 64-bit LSB executable" 0)
                     Scenario.js (Scenario.start false))
     = Ok (Some "64") \/
   fst (archOfBinary (Scenario.constant_host "Linux"
                        "/mnt/c:/build/js: ELF 64-bit LSB executable" 0)
                     Scenario.js (Scenario.start false))
     = Raise AssertionError).
Proof.
  split; [discriminate |]. split; [reflexivity |].
  apply (proj1 (archOfBinary_markers_survive_colons
                  (Scenario.constant_host "Linux"
                     "/mnt/c:/build/js: ELF 64-bit LSB executable" 0)
                  Scenario.js (Scenario.start false) "/mnt/c:/build/js"
                  " ELF 64-bit LSB executable" 0
                  ltac:(discriminate) eq_refl)).
  reflexivity.
Defined.

(* ===================================================================== *)
(** ** Further properties of the feature probes *)
(* ===================================================================== *)

(** X4.  A verdict of [shellSupports] is always backed by a completed process:
    True only by exit code 0, False only by an exit code from 1 to 3, and
    an exception of the process comes out unchanged. *)
Theorem shellSupports_verdict_backed
    (h : Host) (shellPath : Path) (args : list string) (w : world) :
  let i := test_invocation h shellPath args false StderrToStdout in
  let r := fst (shellSupports h shellPath args w) in
  (r = Ok true <-> exists out, respond h (trace w) i = Completed out 0) /\
  (r = Ok false <->
     exists out rc, respond h (trace w) i = Completed out rc /\ 1 <= rc <= 3) /\
  (forall e, respond h (trace w) i = Failed e -> r = Raise e).
Proof.
  intros i r. subst r. rewrite shellSupports_eq. fold i. cbn [fst].
  destruct (respond h (trace w) i) as [out rc | e].
  - destruct (Z.eqb_spec rc 0) as [-> | N0].
    + split; [| split].
      * split; [now exists out | reflexivity].
      * split; [discriminate |]. intros (o & c & [= _ <-] & L). lia.
      * discriminate.
    + destruct (Z.leb_spec 1 rc), (Z.leb_spec rc 3); cbn [andb];
        (split; [| split]);
        try (split; [discriminate | intros (o & [= _ E]); now elim N0]);
        try discriminate;
        try (split; [intros _; exists out, rc; split; [reflexivity | lia] |
                     reflexivity]);
        try (split; [discriminate | intros (o & c & [= _ <-] & L); lia]).
  - split; [| split].
    + split; [discriminate | intros (o & [=])].
    + split; [discriminate | intros (o & c & [=] & _)].
    + now intros e' [= <-].
Qed.

(** X5.  The answer of [testJsShellOrXpcshell] is one of the two kinds, it is
    xpcshell exactly when the process completed with exit code 0, and a
    process that did not complete or that exited with another code than
    0 to 3, as a crash does, is answered with an exception and never with
    jsShell. *)
Theorem testJsShellOrXpcshell_kinds (h : Host) (s : Path) (w : world) :
  let i := test_invocation h s ["-e"; "Components"] false StderrToStdout in
  let r := fst (testJsShellOrXpcshell h s w) in
  (forall kind, r = Ok kind -> shell_kind kind) /\
  (r = Ok "xpcshell" <-> exists out, respond h (trace w) i = Completed out 0) /\
  (r = Ok "jsShell" ->
     exists out rc, respond h (trace w) i = Completed out rc /\ 1 <= rc <= 3) /\
  (forall e, respond h (trace w) i = Failed e -> r = Raise e).
Proof.
  intros i r. subst r. unfold testJsShellOrXpcshell. rewrite bind_unfold.
  rewrite shellSupports_eq. fold i. unfold shell_kind.
  destruct (respond h (trace w) i) as [out rc | e].
  - destruct (Z.eqb_spec rc 0) as [-> | N0]; cbn [fst ret].
    + split; [| split; [| split]].
      * intros k [= <-]. now left.
      * split; [now exists out | reflexivity].
      * discriminate.
      * discriminate.
    + destruct (Z.leb_spec 1 rc), (Z.leb_spec rc 3); cbn [andb fst ret];
        (split; [| split; [| split]]);
        try discriminate;
        try (intros k [= <-]; now right);
        try (split; [discriminate | intros (o & [= _ E]); now elim N0]);
        try (intros _; exists out, rc; split; [reflexivity | lia]).
  - cbn [fst]. split; [| split; [| split]]; try discriminate.
    + split; [discriminate | intros (o & [=])].
    + now intros e' [= <-].
Qed.

(** X6.  When the file-type tool cannot be run, [verifyBinary] raises what
    [subprocess.run] raised, after that one attempt and without starting
    the shell. *)
Theorem verifyBinary_file_tool_failure (h : Host) (w : world) (e : exn) :
  let binary := shell_cache_js_bin_path (sh_obj w) in
  respond h (trace w) (file_invocation h binary) = Failed e ->
  archOfBinary h binary w = (Raise e, after w (file_invocation h binary)) /\
  verifyBinary h w = (Raise e, after w (file_invocation h binary)).
Proof.
  intros binary H.
  assert (A : archOfBinary h binary w
              = (Raise e, after w (file_invocation h binary))).
  { now rewrite archOfBinary_eq, H. }
  split; [exact A |].
  unfold verifyBinary. rewrite get_path_step. fold binary.
  now rewrite bind_unfold, A.
Qed.

Lemma verifyBinary_file_tool_failure_witness :
  respond Cases.broken_host []
    (file_invocation Cases.broken_host Scenario.js) = Failed OSError /\
  verifyBinary Cases.broken_host (Scenario.start false)
    = (Raise OSError,
       after (Scenario.start false)
             (file_invocation Cases.broken_host Scenario.js)).
Proof.
  split; [reflexivity |].
  apply (verifyBinary_file_tool_failure Cases.broken_host (Scenario.start false)
           OSError eq_refl).
Defined.

(* ===================================================================== *)
(** ** Further properties of the build-configuration query *)
(* ===================================================================== *)

(** Lowering moves no character into or out of the whitespace. *)
Lemma isspace_lower_char (c : ascii) : isspace (lower_char c) = isspace c.
Proof. destruct c as [[] [] [] [] [] [] [] []]; reflexivity. Qed.

(** Stripping and lowering can be done in either order. *)
Lemma lower_rstrip (s : string) : lower (rstrip s) = rstrip (lower s).
Proof.
  induction s as [| c s IH].
  - reflexivity.
  - cbn [rstrip lower]. rewrite <- IH. destruct (rstrip s) as [| d r].
    + cbn [lower]. rewrite isspace_lower_char. now destruct (isspace c).
    + reflexivity.
Qed.

(** X7.  A probe that prints nothing, or whitespace only, makes
    [queryBuildConfiguration] raise JSONDecodeError, whatever the exit
    code and whatever the rest of the decoder does. *)
Theorem queryBuildConfiguration_blank_output
    (h : Host) (s : Path) (parameter : string) (w : world)
    (out : string) (rc : Z) :
  respond h (trace w) (query_invocation h s parameter) = Completed out rc ->
  all_space out = true ->
  queryBuildConfiguration h s parameter w
  = (Raise JSONDecodeError, after w (query_invocation h s parameter)).
Proof.
  intros H Hout. rewrite queryBuildConfiguration_eq, H.
  now rewrite (rstrip_all_space out Hout).
Qed.

Lemma queryBuildConfiguration_blank_output_witness :
  respond (Scenario.constant_host "Linux" (String "010" EmptyString) 3) []
    (query_invocation (Scenario.constant_host "Linux" (String "010" EmptyString) 3)
                      Scenario.js "debug")
    = Completed (String "010" EmptyString) 3 /\
  all_space (String "010" EmptyString) = true /\
  fst (queryBuildConfiguration
         (Scenario.constant_host "Linux" (String "010" EmptyString) 3)
         Scenario.js "debug" (Scenario.start false))
    = Raise JSONDecodeError.
Proof.
  split; [reflexivity |]. split; [reflexivity |].
  now rewrite (queryBuildConfiguration_blank_output
                 (Scenario.constant_host "Linux" (String "010" EmptyString) 3)
                 Scenario.js "debug" (Scenario.start false)
                 (String "010" EmptyString) 3 eq_refl eq_refl).
Defined.

(** X8.  Two probes whose outputs differ only in the case of letters and in
    trailing whitespace get the same answer from
    [queryBuildConfiguration]. *)
Theorem queryBuildConfiguration_case_and_padding
    (h : Host) (s : Path) (parameter : string) (w1 w2 : world)
    (out1 out2 ws : string) (rc1 rc2 : Z) :
  respond h (trace w1) (query_invocation h s parameter) = Completed out1 rc1 ->
  respond h (trace w2) (query_invocation h s parameter) = Completed out2 rc2 ->
  lower out2 = (lower out1 ++ ws)%string ->
  all_space ws = true ->
  fst (queryBuildConfiguration h s parameter w2)
  = fst (queryBuildConfiguration h s parameter w1).
Proof.
  intros H1 H2 E Hws. rewrite !queryBuildConfiguration_eq, H1, H2. cbn [fst].
  now rewrite !lower_rstrip, E, (rstrip_app_space _ ws Hws).
Qed.

Lemma queryBuildConfiguration_case_and_padding_witness :
  respond (Cases.two_answers "false" ("FALSE" ++ String "010" EmptyString)%string)
      (trace (Scenario.start false))
      (query_invocation (Cases.two_answers "false"
                           ("FALSE" ++ String "010" EmptyString)%string)
                        Scenario.js "asan")
    = Completed "false" 0 /\
  fst (queryBuildConfiguration
         (Cases.two_answers "false" ("FALSE" ++ String "010" EmptyString)%string)
         Scenario.js "asan"
         (Scenario.reached
            (Cases.two_answers "false" ("FALSE" ++ String "010" EmptyString)%string)
            1))
    = Ok (PBool false).
Proof.
  split; [reflexivity |].
  now rewrite (queryBuildConfiguration_case_and_padding
                 (Cases.two_answers "false"
                    ("FALSE" ++ String "010" EmptyString)%string)
                 Scenario.js "asan" (Scenario.start false)
                 (Scenario.reached
                    (Cases.two_answers "false"
                       ("FALSE" ++ String "010" EmptyString)%string) 1)
                 "false" ("FALSE" ++ String "010" EmptyString)%string
                 (String "010" EmptyString) 0 1 eq_refl eq_refl eq_refl eq_refl).
Defined.

(** X9.  The words False and null, in any letter case and followed by any
    whitespace, are answered with the boolean false and with [None]. *)
Theorem queryBuildConfiguration_false_and_null
    (h : Host) (s : Path) (parameter : string) (w : world)
    (t ws : string) (rc : Z) :
  respond h (trace w) (query_invocation h s parameter)
    = Completed (t ++ ws) rc ->
  all_space ws = true ->
  (lower t = "false" ->
     fst (queryBuildConfiguration h s parameter w) = Ok (PBool false)) /\
  (lower t = "null" ->
     fst (queryBuildConfiguration h s parameter w) = Ok PNone).
Proof.
  intros H Hws. rewrite queryBuildConfiguration_eq, H. cbn [fst].
  rewrite lower_rstrip.
  assert (L : lower (t ++ ws) = (lower t ++ lower ws)%string).
  { clear. induction t as [| c t IH]; [reflexivity |].
    cbn [append lower]. now rewrite IH. }
  assert (S : all_space (lower ws) = true).
  { clear - Hws. induction ws as [| c ws IH]; [reflexivity |].
    cbn [lower all_space] in *. apply andb_prop in Hws as [Hc Hw].
    now rewrite isspace_lower_char, Hc, IH. }
  rewrite L, (rstrip_app_space _ _ S).
  split; intros ->; reflexivity.
Qed.

Lemma queryBuildConfiguration_false_and_null_witness :
  respond Cases.null_host [] (query_invocation Cases.null_host Scenario.js "debug")
    = Completed ("null" ++ String "010" EmptyString) 0 /\
  all_space (String "010" EmptyString) = true /\
  fst (queryBuildConfiguration Cases.null_host Scenario.js "debug"
         (Scenario.start false))
    = Ok PNone.
Proof.
  split; [reflexivity |]. split; [reflexivity |].
  apply (proj2 (queryBuildConfiguration_false_and_null Cases.null_host
                  Scenario.js "debug" (Scenario.start false)
                  "null" (String "010" EmptyString) 0 eq_refl eq_refl)).
  reflexivity.
Defined.

(* ===================================================================== *)
(** ** Further properties of the verifier *)
(* ===================================================================== *)

Lemma run_steps_cons_ok (step : M bool) (rest : list (M bool)) (w w' : world) :
  run_steps (step :: rest) w = (Ok tt, w') ->
  exists w1, step w = (Ok true, w1) /\ run_steps rest w1 = (Ok tt, w').
Proof.
  cbn [run_steps]. rewrite bind_unfold.
  destruct (step w) as [[b | e] w1]; [| discriminate].
  rewrite assert_step. destruct b; [| discriminate].
  intros H. now exists w1.
Qed.

Lemma check_arch_ok (h : Host) (binary : Path) (o : BuildOpts) (w w1 : world) :
  check_arch h binary o w = (Ok true, w1) ->
  exists arch, archOfBinary h binary w = (Ok arch, w1) /\
               eq_optstr arch (if enable32 o then "32" else "64") = true.
Proof.
  unfold check_arch. rewrite bind_unfold.
  destruct (archOfBinary h binary w) as [[arch | e] w0]; [| discriminate].
  intros [= E <-]. now exists arch.
Qed.

Lemma check_arm_ok (h : Host) (binary : Path) (side expected : bool) (w w1 : world) :
  check_arm h binary side expected w = (Ok true, w1) ->
  exists v, queryBuildConfiguration h binary "arm-simulator" w = (Ok v, w1) /\
            eq_bool (and_ v (PBool side)) expected = true.
Proof.
  unfold check_arm. rewrite bind_unfold.
  destruct (queryBuildConfiguration h binary "arm-simulator" w)
    as [[v | e] w0]; [| discriminate].
  intros [= E <-]. now exists v.
Qed.

(** [(v and side) == True] needs [side]: a value that is not true is not
    equal to True, and a true one is replaced by [side]. *)
Lemma eq_bool_and_true (v : pyval) (side : bool) :
  eq_bool (and_ v (PBool side)) true = true -> side = true.
Proof.
  unfold and_. destruct (truthy v) eqn:T.
  - cbn. now destruct side.
  - destruct v as [| b | n | [q | |] | | |]; cbn in T |- *; try discriminate.
    + now destruct b.
    + apply negb_false_iff, Z.eqb_eq in T. now subst n.
    + apply negb_false_iff, Qeq_bool_iff in T. intros E.
      apply Qeq_bool_iff in E. rewrite T in E. discriminate.
Qed.

(** What a successful verification went through: the two checks at the
    ends of the run. *)
Lemma verifyBinary_ok_ends (h : Host) (w w' : world) :
  verifyBinary h w = (Ok tt, w') ->
  let binary := shell_cache_js_bin_path (sh_obj w) in
  let o := build_opts (sh_obj w) in
  (exists arch w1, archOfBinary h binary w = (Ok arch, w1) /\
                   eq_optstr arch (if enable32 o then "32" else "64") = true) /\
  (exists sim32 sim64,
     eq_bool (and_ sim32 (PBool (enable32 o))) (enableSimulatorArm32 o) = true /\
     eq_bool (and_ sim64 (PBool (negb (enable32 o)))) (enableSimulatorArm64 o)
       = true).
Proof.
  intros H binary o. rewrite verifyBinary_run_steps in H.
  fold binary in H. fold o in H. unfold verify_steps in H.
  apply run_steps_cons_ok in H as (w1 & S1 & H).
  apply run_steps_cons_ok in H as (w2 & S2 & H).
  apply run_steps_cons_ok in H as (w3 & S3 & H).
  apply run_steps_cons_ok in H as (w4 & S4 & H).
  apply run_steps_cons_ok in H as (w5 & S5 & H).
  apply run_steps_cons_ok in H as (w6 & S6 & H).
  apply check_arch_ok in S1 as (arch & A1 & A2).
  apply check_arm_ok in S5 as (sim32 & _ & C5).
  apply check_arm_ok in S6 as (sim64 & _ & C6).
  split; [now exists arch, w1 | now exists sim32, sim64].
Qed.

(** X10.  A verified binary never has the ARM simulator of the other word size
    among its expected options: with enable32 the option
    enableSimulatorArm64 is off, without it enableSimulatorArm32 is off;
    so options that expect both simulators are never verified, whatever
    the shell reports. *)
Theorem verifyBinary_one_simulator (h : Host) (w w' : world) :
  verifyBinary h w = (Ok tt, w') ->
  let o := build_opts (sh_obj w) in
  (enable32 o = true -> enableSimulatorArm64 o = false) /\
  (enable32 o = false -> enableSimulatorArm32 o = false) /\
  ~ (enableSimulatorArm32 o = true /\ enableSimulatorArm64 o = true).
Proof.
  intros H o.
  destruct (verifyBinary_ok_ends h w w' H) as (_ & sim32 & sim64 & C5 & C6).
  fold o in C5, C6.
  assert (A : enable32 o = true -> enableSimulatorArm64 o = false).
  { intros E. destruct (enableSimulatorArm64 o); [| reflexivity].
    apply eq_bool_and_true in C6. rewrite E in C6. discriminate. }
  assert (B : enable32 o = false -> enableSimulatorArm32 o = false).
  { intros E. destruct (enableSimulatorArm32 o); [| reflexivity].
    apply eq_bool_and_true in C5. congruence. }
  split; [exact A |]. split; [exact B |].
  intros [E32 E64]. destruct (enable32 o).
  - specialize (A eq_refl). congruence.
  - specialize (B eq_refl). congruence.
Qed.

Lemma verifyBinary_one_simulator_witness :
  verifyBinary Scenario.plain64_host (Scenario.start false)
    = (Ok tt, Scenario.reached Scenario.plain64_host 6) /\
  ~ (enableSimulatorArm32 (build_opts (sh_obj (Scenario.start false))) = true /\
     enableSimulatorArm64 (build_opts (sh_obj (Scenario.start false))) = true).
Proof.
  split; [reflexivity |].
  apply (verifyBinary_one_simulator Scenario.plain64_host (Scenario.start false)
           (Scenario.reached Scenario.plain64_host 6) eq_refl).
Defined.

(** X11.  Off Windows a verified binary was described by the file tool with the
    markers of the expected word size only: with enable32 the description
    has "32-bit" or "i386" and not "64-bit", without it the description
    has "64-bit" and neither of the others. *)
Theorem verifyBinary_agrees_with_file (h : Host) (w w' : world) :
  verifyBinary h w = (Ok tt, w') ->
  platform_system h <> "Windows" ->
  let binary := shell_cache_js_bin_path (sh_obj w) in
  let o := build_opts (sh_obj w) in
  exists pre desc rc,
    respond h (trace w) (file_invocation h binary)
      = Completed (pre ++ String ":" desc) rc /\
    str_in ":" pre = false /\
    (enable32 o = true ->
       str_in "32-bit" desc || str_in "i386" desc = true /\
       str_in "64-bit" desc = false) /\
    (enable32 o = false ->
       str_in "64-bit" desc = true /\ str_in "32-bit" desc = false /\
       str_in "i386" desc = false).
Proof.
  intros H Hsys binary o.
  destruct (verifyBinary_ok_ends h w w' H) as ((arch & w1 & A & E) & _).
  fold binary in A. fold o in E.
  rewrite archOfBinary_eq in A.
  destruct (respond h (trace w) (file_invocation h binary)) as [out rc | e];
    [| discriminate].
  destruct (cut_colon out) as [[pre desc] |] eqn:C; [| discriminate].
  injection A as A _.
  destruct (cut_colon_some out pre desc C) as [-> Hpre].
  destruct (marker_verdict_unix h desc Hsys) as (H32 & H64 & _ & _).
  exists pre, desc, rc. split; [reflexivity |]. split; [exact Hpre |].
  split; intros E32; rewrite E32 in E; destruct arch as [a |];
    try discriminate; cbn [eq_optstr] in E; apply String.eqb_eq in E;
    subst a; [now apply H32 | now apply H64].
Qed.

Lemma verifyBinary_agrees_with_file_witness :
  verifyBinary Scenario.plain64_host (Scenario.start false)
    = (Ok tt, Scenario.reached Scenario.plain64_host 6) /\
  platform_system Scenario.plain64_host <> "Windows" /\
  exists pre desc rc,
    respond Scenario.plain64_host []
      (file_invocation Scenario.plain64_host Scenario.js)
      = Completed (pre ++ String ":" desc) rc /\
    str_in "64-bit" desc = true.
Proof.
  split; [reflexivity |]. split; [discriminate |].
  destruct (verifyBinary_agrees_with_file Scenario.plain64_host
              (Scenario.start false) (Scenario.reached Scenario.plain64_host 6)
              eq_refl ltac:(discriminate))
    as (pre & desc & rc & R & _ & _ & N).
  exists pre, desc, rc. split; [exact R | exact (proj1 (N eq_refl))].
Defined.

(** X12.  Off Windows a description without any marker never verifies: the
    [None] of [archOfBinary] equals neither "32" nor "64", so
    [verifyBinary] raises AssertionError after the file-type process,
    whatever the expected options are. *)
Theorem verifyBinary_rejects_unmarked
    (h : Host) (w : world) (pre desc : string) (rc : Z) :
  let binary := shell_cache_js_bin_path (sh_obj w) in
  platform_system h <> "Windows" ->
  str_in ":" pre = false ->
  respond h (trace w) (file_invocation h binary)
    = Completed (pre ++ String ":" desc) rc ->
  str_in "32-bit" desc = false ->
  str_in "i386" desc = false ->
  str_in "64-bit" desc = false ->
  verifyBinary h w = (Raise AssertionError, after w (file_invocation h binary)).
Proof.
  intros binary Hsys Hpre H H32 H386 H64.
  pose proof (archOfBinary_unmarked h binary w pre desc rc Hsys Hpre H
                H32 H386 H64) as A.
  unfold verifyBinary. rewrite get_path_step. fold binary.
  rewrite (bind_ok _ _ _ _ _ A), build_opt_step, assert_step.
  reflexivity.
Qed.

Lemma verifyBinary_rejects_unmarked_witness :
  platform_system (Scenario.constant_host "Linux" "/build/dist/bin/js: data" 0)
    <> "Windows" /\
  str_in "64-bit" " data" = false /\
  verifyBinary (Scenario.constant_host "Linux" "/build/dist/bin/js: data" 0)
               (Scenario.start false)
    = (Raise AssertionError,
       after (Scenario.start false)
             (file_invocation
                (Scenario.constant_host "Linux" "/build/dist/bin/js: data" 0)
                Scenario.js)).
Proof.
  split; [discriminate |]. split; [reflexivity |].
  apply (verifyBinary_rejects_unmarked
           (Scenario.constant_host "Linux" "/build/dist/bin/js: data" 0)
           (Scenario.start false) "/build/dist/bin/js" " data" 0
           ltac:(discriminate) eq_refl eq_refl eq_refl eq_refl eq_refl).
Defined.

Lemma verify_plan_inspects (h : Host) (binary : Path) :
  Forall (inspects binary) (verify_plan h binary).
Proof.
  unfold verify_plan, inspects.
  apply Forall_cons; [now left |].
  repeat (apply Forall_cons; [right; eexists; reflexivity |]).
  apply Forall_nil.
Qed.

(** X13.  Every run of [verifyBinary] starts with the file tool on the binary,
    starts at most six processes, and starts nothing but the file tool on
    the binary and the binary itself with a build-configuration script:
    no other program, no valgrind, no other arguments. *)
Theorem verifyBinary_processes (h : Host) (w : world) :
  let binary := shell_cache_js_bin_path (sh_obj w) in
  let started := started_since w (snd (verifyBinary h w)) in
  (exists more, started = file_invocation h binary :: more) /\
  (List.length started <= 6)%nat /\
  Forall (inspects binary) started /\
  Forall (fun i => inv_cwd i = getcwd h) started.
Proof.
  intros binary started.
  destruct (verifyBinary_follows_plan h w) as (done & rest & Hp & Ht & _).
  fold binary in Hp.
  assert (S : started = done) by now apply started_since_app.
  assert (First : exists more, done = file_invocation h binary :: more).
  { destruct done as [| i more].
    - exfalso. rewrite app_nil_r in Ht.
      unfold verifyBinary in Ht. rewrite get_path_step in Ht.
      fold binary in Ht. rewrite bind_unfold in Ht.
      pose proof (starts_archOfBinary h binary w) as A.
      destruct (archOfBinary h binary w) as [[arch | e] w1]; cbn [snd] in A;
        subst w1.
      + match type of Ht with
        | trace (snd (?k ?a ?w0)) = _ =>
            assert (R : runs_within (k a) (tl (verify_plan h binary)))
              by (cbn [tl verify_plan]; plan)
        end.
        destruct (R (after w (file_invocation h binary))) as (d & r & _ & T & _).
        rewrite Ht in T. cbn [after trace] in T.
        apply (f_equal (@List.length _)) in T.
        rewrite !length_app in T. cbn [List.length] in T. lia.
      + cbn [snd after trace] in Ht.
        apply (f_equal (@List.length _)) in Ht.
        rewrite length_app in Ht. cbn [List.length] in Ht. lia.
    - exists more. cbn [verify_plan app] in Hp. now injection Hp as <- _. }
  rewrite S. split; [exact First |].
  pose proof (verify_plan_inspects h binary) as I.
  assert (C : Forall (fun i => inv_cwd i = getcwd h) (verify_plan h binary))
    by (repeat constructor).
  rewrite Hp in I, C. apply Forall_app in I as [I _]. apply Forall_app in C as [C _].
  split; [| split; [exact I | exact C]].
  apply (f_equal (@List.length _)) in Hp. rewrite length_app in Hp.
  cbn [verify_plan List.length] in Hp. lia.
Qed.

(** X14.  A field reported as null never verifies: Python's [None] equals
    neither True nor False, so after a passed architecture check a debug
    query answered with null, in any case and with any trailing
    whitespace, ends [verifyBinary] with AssertionError whatever
    enableDbg is. *)
Theorem verifyBinary_rejects_null
    (h : Host) (w w1 : world) (arch : option string) (t ws : string) (rc : Z) :
  let binary := shell_cache_js_bin_path (sh_obj w) in
  let o := build_opts (sh_obj w) in
  archOfBinary h binary w = (Ok arch, w1) ->
  eq_optstr arch (if enable32 o then "32" else "64") = true ->
  respond h (trace w1) (query_invocation h binary "debug")
    = Completed (t ++ ws) rc ->
  lower t = "null" ->
  all_space ws = true ->
  verifyBinary h w
  = (Raise AssertionError, after w1 (query_invocation h binary "debug")).
Proof.
  intros binary o A E H Ht Hws.
  assert (Q : queryBuildConfiguration h binary "debug" w1
              = (Ok PNone, after w1 (query_invocation h binary "debug"))).
  { rewrite queryBuildConfiguration_eq, H, lower_rstrip.
    assert (L : forall a b, lower (a ++ b) = (lower a ++ lower b)%string).
    { clear. intros a b. induction a as [| c a IH]; [reflexivity |].
      cbn [append lower]. now rewrite IH. }
    assert (S : all_space (lower ws) = true).
    { clear - Hws. induction ws as [| c ws IH]; [reflexivity |].
      cbn [lower all_space] in *. apply andb_prop in Hws as [Hc Hw].
      now rewrite isspace_lower_char, Hc, IH. }
    now rewrite L, (rstrip_app_space _ _ S), Ht. }
  pose proof (shell_after_archOfBinary _ _ _ _ _ A) as S1.
  unfold verifyBinary. rewrite get_path_step. fold binary.
  pass_process A S1. fold o. pass_assert E.
  rewrite (bind_ok _ _ _ _ _ Q), build_opt_step, assert_step.
  reflexivity.
Qed.

Lemma verifyBinary_rejects_null_witness :
  archOfBinary Cases.null_host Scenario.js (Scenario.start false)
    = (Ok (Some "64"), Scenario.reached Cases.null_host 1) /\
  lower "null" = "null" /\
  verifyBinary Cases.null_host (Scenario.start false)
    = (Raise AssertionError, Scenario.reached Cases.null_host 2).
Proof.
  split; [reflexivity |]. split; [reflexivity |].
  apply (verifyBinary_rejects_null Cases.null_host (Scenario.start false)
           (Scenario.reached Cases.null_host 1) (Some "64")
           "null" (String "010" EmptyString) 0
           eq_refl eq_refl eq_refl eq_refl eq_refl).
Defined.

(* ===================================================================== *)
(** ** The valgrind command line *)
(* ===================================================================== *)

(** X15.  The valgrind list starts with the program, carries the error exit
    code in decimal, has --dsymutil=yes on Darwin and nowhere else, and
    two error codes give the same list only when they are equal. *)
Theorem constructVgCmdList_shape (h : Host) (errorCode : Z) :
  let l := constructVgCmdList h errorCode in
  hd_error l = Some "valgrind" /\
  In ("--error-exitcode=" ++ str_int errorCode)%string l /\
  (In "--dsymutil=yes" l <-> platform_system h = "Darwin") /\
  List.length l = (if String.eqb (platform_system h) "Darwin" then 10 else 9)%nat /\
  (forall errorCode', constructVgCmdList h errorCode' = l ->
                      errorCode' = errorCode).
Proof.
  intros l. subst l. unfold constructVgCmdList.
  destruct (String.eqb_spec (platform_system h) "Darwin") as [D | D];
    cbn [app hd_error List.length].
  - split; [reflexivity |]. split; [right; right; now left |].
    split; [split; [intros _; exact D | intros _; right; now left] |].
    split; [reflexivity |].
    intros e' E. injection E as E. now apply str_int_inj.
  - split; [reflexivity |]. split; [right; now left |].
    split.
    + split; [| intros E; now elim D].
      intros I. exfalso. cbn [In] in I.
      repeat (destruct I as [I | I]; [cbn [append] in I; discriminate |]).
      exact I.
    + split; [reflexivity |].
      intros e' E. injection E as E. now apply str_int_inj.
Qed.

(* ===================================================================== *)
(** ** The tables of library names *)
(* ===================================================================== *)

Lemma icu_libs_of_dll (icu_ver : Z) : Forall (ends_with ".dll") (icu_libs_of icu_ver).
Proof.
  unfold icu_libs_of.
  repeat (apply Forall_cons;
          [match goal with
           | |- ends_with _ (?n ++ str_int ?v ++ _)%string =>
               exists (n ++ str_int v)%string; reflexivity
           end |]).
  apply Forall_nil.
Qed.

Lemma icu_libs_dll (vers : list Z) : Forall (ends_with ".dll") (icu_libs vers).
Proof.
  induction vers as [| v vers IH]; cbn [icu_libs].
  - apply Forall_nil.
  - apply Forall_app. split; [apply icu_libs_of_dll | exact IH].
Qed.

Lemma icu_libs_length (vers : list Z) :
  List.length (icu_libs vers) = (12 * List.length vers)%nat.
Proof.
  induction vers as [| v vers IH]; cbn [icu_libs].
  - reflexivity.
  - rewrite length_app, IH. cbn [icu_libs_of List.length]. lia.
Qed.

(** X17.  Off Windows [ALL_RUN_LIBS] has four entries of which the last three
    are empty names; the first, the mozglue library, is empty as well on
    every system other than Darwin and Linux. *)
Theorem ALL_RUN_LIBS_off_windows (h : Host) :
  platform_system h <> "Windows" ->
  ALL_RUN_LIBS h = [RUN_MOZGLUE_LIB h; ""; ""; ""] /\
  (RUN_MOZGLUE_LIB h = "" <->
     platform_system h <> "Darwin" /\ platform_system h <> "Linux").
Proof.
  intros W. apply String.eqb_neq in W.
  unfold ALL_RUN_LIBS, all_run_libs_with, RUN_MOZGLUE_LIB, RUN_NSPR_LIB,
    RUN_PLDS_LIB, RUN_PLC_LIB, is_system.
  rewrite W. split; [reflexivity |].
  destruct (String.eqb_spec (platform_system h) "Darwin") as [D | D].
  - split; [discriminate | now intros [N _]].
  - destruct (String.eqb_spec (platform_system h) "Linux") as [L | L].
    + split; [discriminate | now intros [_ N]].
    + split; [now intros _ | reflexivity].
Qed.

Lemma ALL_RUN_LIBS_off_windows_witness :
  platform_system (Scenario.constant_host "FreeBSD" "" 0) <> "Windows" /\
  ALL_RUN_LIBS (Scenario.constant_host "FreeBSD" "" 0) = [""; ""; ""; ""].
Proof.
  split; [discriminate |].
  apply (ALL_RUN_LIBS_off_windows (Scenario.constant_host "FreeBSD" "" 0)
           ltac:(discriminate)).
Defined.

(** X18.  On Windows every entry of the list is a name that ends in .dll, none
    is empty, and the loop adds twelve names for each ICU version after
    the five fixed ones: 53 names for the four versions of the module. *)
Theorem all_run_libs_windows (h : Host) (vers : list Z) :
  platform_system h = "Windows" ->
  Forall (ends_with ".dll") (all_run_libs_with h vers) /\
  ~ In "" (all_run_libs_with h vers) /\
  List.length (all_run_libs_with h vers) = (5 + 12 * List.length vers)%nat /\
  List.length (ALL_RUN_LIBS h) = 53%nat.
Proof.
  intros W.
  assert (F : Forall (ends_with ".dll") (all_run_libs_with h vers)).
  { unfold all_run_libs_with, RUN_MOZGLUE_LIB, RUN_NSPR_LIB, RUN_PLDS_LIB,
      RUN_PLC_LIB, RUN_TESTPLUG_LIB, is_system.
    rewrite W. cbn [String.eqb Ascii.eqb Bool.eqb app].
    apply Forall_cons; [now exists "mozglue" |].
    apply Forall_cons; [now exists "nspr4" |].
    apply Forall_cons; [now exists "plds4" |].
    apply Forall_cons; [now exists "plc4" |].
    apply Forall_cons; [now exists "testplug" |].
    apply icu_libs_dll. }
  assert (L : forall vs, List.length (all_run_libs_with h vs)
                         = (5 + 12 * List.length vs)%nat).
  { intros vs. unfold all_run_libs_with, is_system. rewrite W.
    cbn [String.eqb Ascii.eqb Bool.eqb]. rewrite !length_app, icu_libs_length.
    reflexivity. }
  split; [exact F |]. split; [| split; [apply L |]].
  - intros I. rewrite Forall_forall in F. destruct (F _ I) as [p E].
    destruct p; discriminate.
  - unfold ALL_RUN_LIBS. now rewrite L.
Qed.

Lemma all_run_libs_windows_witness :
  platform_system (Scenario.constant_host "Windows" "" 0) = "Windows" /\
  List.length (ALL_RUN_LIBS (Scenario.constant_host "Windows" "" 0)) = 53%nat /\
  ~ In "" (ALL_RUN_LIBS (Scenario.constant_host "Windows" "" 0)).
Proof.
  split; [reflexivity |].
  destruct (all_run_libs_windows (Scenario.constant_host "Windows" "" 0)
              WIN_ICU_VERS eq_refl) as (_ & N & _ & L).
  split; [exact L | exact N].
Defined.
